(** * A shallow embedding of [src/ancy.py] (Ancy Travel Guide)

    The module-level constants, [AncyTravelGuide._make_api_request],
    [AncyTravelGuide.chat], [validate_api_key] and the script body [main]
    are translated below.  Python objects that the code mutates or shares
    (the conversation list of the session state, the request [messages]
    list, the turn dicts) live in an explicit heap; effects (allocation,
    mutation, the one HTTP call, Streamlit output) are threaded through a
    small state-and-exception monad. *)

From Stdlib Require Import List ZArith String Ascii Bool Lia.
Import ListNotations.
Open Scope Z_scope.
Local Set Warnings "-register-all".

(** ** Python text

    A Python [str] is a sequence of Unicode code points. *)

Definition pystr := list Z.

(** ASCII text written as a Rocq string literal, as code points. *)
Definition lit (s : string) : pystr :=
  map (fun a => Z.of_nat (nat_of_ascii a)) (list_ascii_of_string s).

(** [str.isspace] on one code point, as CPython's [Py_UNICODE_ISSPACE]. *)
Definition py_isspace (c : Z) : bool :=
  ((9 <=? c) && (c <=? 13)) || ((28 <=? c) && (c <=? 32)) ||
  (c =? 133) || (c =? 160) || (c =? 5760) ||
  ((8192 <=? c) && (c <=? 8202)) || (c =? 8232) || (c =? 8233) ||
  (c =? 8239) || (c =? 8287) || (c =? 12288).

Fixpoint lstrip (s : pystr) : pystr :=
  match s with
  | [] => []
  | c :: r => if py_isspace c then lstrip r else s
  end.

(** [str.strip()] with no argument. *)
Definition py_strip (s : pystr) : pystr := rev (lstrip (rev (lstrip s))).

(** Truthiness of a [str]: non-empty. *)
Definition str_truthy (s : pystr) : bool :=
  match s with [] => false | _ => true end.

Fixpoint pystr_eqb (a b : pystr) : bool :=
  match a, b with
  | [], [] => true
  | x :: a', y :: b' => (x =? y) && pystr_eqb a' b'
  | _, _ => false
  end.

(** [str(n)] of a Python [int]. *)
Fixpoint digits_rev (fuel : nat) (n : Z) : pystr :=
  match fuel with
  | O => []
  | S f => (48 + n mod 10) :: (if n <? 10 then [] else digits_rev f (n / 10))
  end.

Definition str_of_int (n : Z) : pystr :=
  if n <? 0 then lit "-" ++ rev (digits_rev (Z.to_nat (- n)) (- n))
  else rev (digits_rev (S (Z.to_nat n)) n).

(** [repr] of one of the code's constant dictionary keys (plain ASCII,
    no quote or backslash), as [str(KeyError(key))] shows it. *)
Definition repr_key (k : pystr) : pystr := lit "'" ++ k ++ lit "'".

(** ** Module-level constants *)

Definition GROQ_API_URL : pystr :=
  lit "https://api.groq.com/openai/v1/chat/completions".
Definition MODEL_NAME : pystr := lit "llama3-8b-8192".

Definition SYSTEM_PROMPT : pystr := lit "
You are Ancy, a warm and inspiring AI travel guide with a poetic soul and adventurous spirit.

Your characteristics:
- Speak with beautiful, flowing language and travel metaphors
- Always remain enthusiastic, encouraging, and wise
- Offer detailed advice about destinations, travel tips, cultural insights, and emotional support
- Use vivid imagery of places, journeys, and discoveries in your responses
- Be inspiring and uplifting while providing practical, actionable travel wisdom
- Share stories and insights that make travelers feel excited about their journeys
- Keep responses engaging but focused (3-6 sentences typically)

Remember: You are a companion for wanderers, dreamers, and adventurers on their life journeys.
".

(** The strings returned by [_make_api_request] and [chat]; the leading
    emoji is written as its code point. *)
Definition MSG_AUTH : pystr :=
  128273 :: lit " Authentication failed. Please check your Groq API key in .env file.".
Definition MSG_RATE : pystr :=
  9203 :: lit " Rate limit reached. Please wait a moment before trying again.".
Definition msg_api_error (status : Z) (err : pystr) : pystr :=
  128683 :: lit " API error (" ++ str_of_int status ++ lit "): " ++ err.
Definition MSG_CONNECTION : pystr :=
  127760 :: lit " Connection error. Please check your internet connection.".
Definition MSG_TIMEOUT : pystr :=
  9200 :: lit " Request timed out. The API might be busy, please try again.".
Definition MSG_INVALID_FORMAT : pystr :=
  128196 :: lit " Invalid response format from API.".
Definition msg_missing (err : pystr) : pystr :=
  128269 :: lit " Unexpected response structure: missing " ++ err.
Definition msg_unexpected (err : pystr) : pystr :=
  10060 :: lit " Unexpected error: " ++ err.
Definition MSG_EMPTY_INPUT : pystr :=
  129300 :: lit " I sense the quiet before an adventure... What's stirring in your traveler's heart?".

Definition PLACEHOLDER_KEY : pystr := lit "YOUR_GROQ_API_KEY_HERE".

(** ** Values parsed from a response body ([json.loads])

    A parsed object has no duplicate keys (the decoder keeps the last
    one), so a dictionary is an association list looked up from the
    front.  A float is kept as its [repr]. *)

Inductive json : Type :=
| JNull
| JBool (b : bool)
| JInt (n : Z)
| JFloat (repr : pystr)
| JStr (s : pystr)
| JArr (xs : list json)
| JObj (kvs : list (pystr * json)).

Fixpoint assoc {A} (k : pystr) (kvs : list (pystr * A)) : option A :=
  match kvs with
  | [] => None
  | (k', v) :: r => if pystr_eqb k k' then Some v else assoc k r
  end.

(** ** Exceptions

    The classes that can reach the [try] of [_make_api_request] or leave
    [main].  [isinstance] lists, for each, the [except] clauses of the
    source it matches.  The Streamlit control-flow exceptions raised by
    [st.stop()] and [st.rerun()] derive from [BaseException], not from
    [Exception]. *)

Inductive exn_class : Type :=
| RequestException        (* other requests errors: InvalidURL, TooManyRedirects, ... *)
| HTTPError
| ConnectionError
| ProxyError
| SSLError
| ConnectTimeout          (* both ConnectionError and Timeout *)
| Timeout
| ReadTimeout
| RequestsJSONDecodeError (* requests.exceptions.JSONDecodeError, a json.JSONDecodeError *)
| KeyError
| IndexError
| TypeError
| ValueError
| UnboundLocalError
| OtherException
| StopException
| RerunException.

Record exn : Type := mk_exn { exn_cls : exn_class; exn_str : pystr }.

(** The classes named in the [except] clauses, in source order. *)
Inductive catch_class : Type :=
| CHTTPError | CConnectionError | CTimeout | CJSONDecodeError | CKeyError | CException.

Definition catch_class_eqb (a b : catch_class) : bool :=
  match a, b with
  | CHTTPError, CHTTPError | CConnectionError, CConnectionError
  | CTimeout, CTimeout | CJSONDecodeError, CJSONDecodeError
  | CKeyError, CKeyError | CException, CException => true
  | _, _ => false
  end.

Definition catches (c : exn_class) : list catch_class :=
  match c with
  | HTTPError => [CHTTPError; CException]
  | ConnectionError | ProxyError | SSLError => [CConnectionError; CException]
  | ConnectTimeout => [CConnectionError; CTimeout; CException]
  | Timeout | ReadTimeout => [CTimeout; CException]
  | RequestsJSONDecodeError => [CJSONDecodeError; CException]
  | KeyError => [CKeyError; CException]
  | RequestException | IndexError | TypeError | ValueError
  | UnboundLocalError | OtherException => [CException]
  | StopException | RerunException => []
  end.

Definition isinstance (e : exn) (c : catch_class) : bool :=
  existsb (catch_class_eqb c) (catches (exn_cls e)).

Inductive res (A : Type) : Type :=
| Ok (a : A)
| Raise (e : exn).
Arguments Ok {A} a.
Arguments Raise {A} e.

(** [obj[i]] on a parsed value, for a [str] key or an [int] index. *)
Inductive index : Type := IKey (k : pystr) | IInt (n : Z).

Definition type_error (s : string) : exn := mk_exn TypeError (lit s).

Definition py_getitem (o : json) (i : index) : res json :=
  match o, i with
  | JObj kvs, IKey k =>
      match assoc k kvs with
      | Some v => Ok v
      | None => Raise (mk_exn KeyError (repr_key k))
      end
  | JObj _, IInt n => Raise (mk_exn KeyError (str_of_int n))
  | JArr xs, IInt n =>
      let len := Z.of_nat (List.length xs) in
      let j := if n <? 0 then n + len else n in
      if (0 <=? j) && (j <? len) then
        match nth_error xs (Z.to_nat j) with
        | Some v => Ok v
        | None => Raise (mk_exn IndexError (lit "list index out of range"))
        end
      else Raise (mk_exn IndexError (lit "list index out of range"))
  | JArr _, IKey _ => Raise (type_error "list indices must be integers or slices, not str")
  | JStr s, IInt n =>
      let len := Z.of_nat (List.length s) in
      let j := if n <? 0 then n + len else n in
      if (0 <=? j) && (j <? len) then
        match nth_error s (Z.to_nat j) with
        | Some c => Ok (JStr [c])
        | None => Raise (mk_exn IndexError (lit "string index out of range"))
        end
      else Raise (mk_exn IndexError (lit "string index out of range"))
  | JStr _, IKey _ => Raise (type_error "string indices must be integers, not 'str'")
  | JNull, _ => Raise (type_error "'NoneType' object is not subscriptable")
  | JBool _, _ => Raise (type_error "'bool' object is not subscriptable")
  | JInt _, _ => Raise (type_error "'int' object is not subscriptable")
  | JFloat _, _ => Raise (type_error "'float' object is not subscriptable")
  end.

Definition res_bind {A B} (r : res A) (f : A -> res B) : res B :=
  match r with Ok a => f a | Raise e => Raise e end.

(** [result["choices"][0]["message"]["content"]] *)
Definition extract_content (result : json) : res json :=
  res_bind (py_getitem result (IKey (lit "choices"))) (fun c =>
  res_bind (py_getitem c (IInt 0)) (fun c0 =>
  res_bind (py_getitem c0 (IKey (lit "message"))) (fun m =>
  py_getitem m (IKey (lit "content"))))).

(** ** The HTTP response, as [requests] hands it over *)

Inductive body : Type :=
| BodyJSON (j : json)       (* the body decodes as JSON *)
| BodyInvalid (msg : pystr). (* it does not; [msg] is the decoder's message *)

Record response : Type := mk_response {
  status_code : Z;
  reason : pystr;
  resp_url : pystr;
  resp_body : body }.

(** [Response.raise_for_status()] *)
Definition raise_for_status (r : response) : option exn :=
  let s := status_code r in
  if (400 <=? s) && (s <? 500) then
    Some (mk_exn HTTPError (str_of_int s ++ lit " Client Error: " ++ reason r
                            ++ lit " for url: " ++ resp_url r))
  else if (500 <=? s) && (s <? 600) then
    Some (mk_exn HTTPError (str_of_int s ++ lit " Server Error: " ++ reason r
                            ++ lit " for url: " ++ resp_url r))
  else None.

(** [Response.json()] *)
Definition response_json (r : response) : res json :=
  match resp_body r with
  | BodyJSON j => Ok j
  | BodyInvalid m => Raise (mk_exn RequestsJSONDecodeError m)
  end.

(** What [requests.post] does: it returns a response or raises.  It never
    raises [HTTPError] itself; only [raise_for_status] does. *)
Inductive post_outcome : Type :=
| PostRaise (e : exn)
| PostResp (r : response).

(** ** Objects, the heap and the monad

    A reference points into the heap, a list of objects indexed by
    position.  [VPrim] holds a value that is not a mutable container of
    the program: a [str], [int], [None], or a value the response body was
    parsed into, which no other object references. *)

Inductive val : Type :=
| VPrim (j : json)
| VRef (l : nat).

Inductive obj : Type :=
| OList (xs : list val)
| ODict (kvs : list (pystr * val)).

Definition heap := list obj.

(** One outgoing [requests.post] call, with the heap as it was when the
    call was made (the JSON body is serialised from it). *)
Record request : Type := mk_request {
  req_url : pystr;
  req_headers : nat;
  req_json : nat;
  req_timeout : Z;
  req_heap : heap }.

(** The Streamlit calls of [main], and the construction of the client. *)
Inductive event : Type :=
| EvPageConfig
| EvStyle
| EvError (msg : pystr)
| EvInfo (msg : pystr)
| EvClientCreated (api_key : pystr)
| EvWelcome
| EvClearButton
| EvShowMessage (from_user : bool) (content : val)
| EvRule
| EvChatForm
| EvSpinner
| EvFooter.

Record world : Type := mk_world {
  w_heap : heap;
  w_sent : list request;
  w_trace : list event;
  ss_messages : option val;    (* st.session_state.messages *)
  ss_ancy_initialized : option bool }.

Definition M (A : Type) := world -> res A * world.

Definition ret {A} (a : A) : M A := fun w => (Ok a, w).
Definition bind {A B} (m : M A) (f : A -> M B) : M B :=
  fun w => match m w with
           | (Ok a, w') => f a w'
           | (Raise e, w') => (Raise e, w')
           end.
Definition raise {A} (e : exn) : M A := fun w => (Raise e, w).

Notation "'let*' x ':=' m 'in' k" := (bind m (fun x => k))
  (at level 200, x name, m at level 100, k at level 200).

Definition set_heap (h : heap) (w : world) : world :=
  mk_world h (w_sent w) (w_trace w) (ss_messages w) (ss_ancy_initialized w).

Definition alloc (o : obj) : M nat :=
  fun w => (Ok (List.length (w_heap w)), set_heap (w_heap w ++ [o]) w).

Definition dangling : exn := mk_exn OtherException (lit "dangling reference").

Definition load (l : nat) : M obj :=
  fun w => match nth_error (w_heap w) l with
           | Some o => (Ok o, w)
           | None => (Raise dangling, w)
           end.

Fixpoint replace_nth {A} (n : nat) (x : A) (xs : list A) : list A :=
  match xs, n with
  | [], _ => []
  | _ :: r, O => x :: r
  | y :: r, S n' => y :: replace_nth n' x r
  end.

Definition store (l : nat) (o : obj) : M unit :=
  fun w => if Nat.ltb l (List.length (w_heap w))
           then (Ok tt, set_heap (replace_nth l o (w_heap w)) w)
           else (Raise dangling, w).

Definition emit (ev : event) : M unit :=
  fun w => (Ok tt, mk_world (w_heap w) (w_sent w) (w_trace w ++ [ev])
                            (ss_messages w) (ss_ancy_initialized w)).

Definition str_val (s : pystr) : val := VPrim (JStr s).

(** [xs.append(v)] *)
Definition list_append (xs : val) (v : val) : M unit :=
  match xs with
  | VRef l =>
      let* o := load l in
      match o with
      | OList ys => store l (OList (ys ++ [v]))
      | ODict _ => raise (type_error "'dict' object has no attribute 'append'")
      end
  | VPrim _ => raise (type_error "object has no attribute 'append'")
  end.

(** [xs.extend(ys)] for a list [ys] *)
Definition list_extend (l : nat) (ys : nat) : M unit :=
  let* o := load l in
  let* o' := load ys in
  match o, o' with
  | OList xs, OList zs => store l (OList (xs ++ zs))
  | _, _ => raise (type_error "list.extend expects lists here")
  end.

(** The last [n] items of a list, [xs[-n:]] for [n > 0]. *)
Definition last_n {A} (n : nat) (xs : list A) : list A :=
  skipn (List.length xs - n) xs.

(** The items of [v[-10:]], as the new list object's contents. *)
Definition slice_last10 (v : val) : M (list val) :=
  match v with
  | VRef l =>
      let* o := load l in
      match o with
      | OList xs => ret (last_n 10 xs)
      | ODict _ => raise (type_error "unhashable type: 'slice'")
      end
  | VPrim (JArr xs) => ret (map VPrim (last_n 10 xs))
  | VPrim (JStr s) => ret (map (fun c => str_val [c]) (last_n 10 s))
  | VPrim (JObj _) => raise (type_error "unhashable type: 'slice'")
  | VPrim _ => raise (type_error "object is not subscriptable")
  end.

Definition lift {A} (r : res A) : M A := fun w => (r, w).

(** ** The completion client *)

Record AncyTravelGuide : Type := mk_ancy { api_key : pystr }.

Section Client.

(** The remote service: what [requests.post] yields for a request. *)
Variable net : request -> post_outcome.

(** [requests.post(GROQ_API_URL, headers=..., json=..., timeout=30)] *)
Definition requests_post (headers payload : nat) : M post_outcome :=
  fun w =>
    let rq := mk_request GROQ_API_URL headers payload 30 (w_heap w) in
    (Ok (net rq),
     mk_world (w_heap w) (w_sent w ++ [rq]) (w_trace w)
              (ss_messages w) (ss_ancy_initialized w)).

(** The statements of the [try] block, run on the outcome of the call:
    the value of the local [response] when control leaves the block,
    and how it leaves. *)
Definition try_block (outcome : post_outcome) : option response * res json :=
  match outcome with
  | PostRaise e => (None, Raise e)
  | PostResp r =>
      (Some r,
       match raise_for_status r with
       | Some e => Raise e
       | None => res_bind (response_json r) extract_content
       end)
  end.

(** The [except] clauses, tried in source order. *)
Definition handle (response : option response) (e : exn) : res json :=
  if isinstance e CHTTPError then
    match response with
    | None => Raise (mk_exn UnboundLocalError
                 (lit "cannot access local variable 'response' where it is not associated with a value"))
    | Some r =>
        if status_code r =? 401 then Ok (JStr MSG_AUTH)
        else if status_code r =? 429 then Ok (JStr MSG_RATE)
        else Ok (JStr (msg_api_error (status_code r) (exn_str e)))
    end
  else if isinstance e CConnectionError then Ok (JStr MSG_CONNECTION)
  else if isinstance e CTimeout then Ok (JStr MSG_TIMEOUT)
  else if isinstance e CJSONDecodeError then Ok (JStr MSG_INVALID_FORMAT)
  else if isinstance e CKeyError then Ok (JStr (msg_missing (exn_str e)))
  else if isinstance e CException then Ok (JStr (msg_unexpected (exn_str e)))
  else Raise e.

Definition turn (role : string) (content : val) : obj :=
  ODict [(lit "role", str_val (lit role)); (lit "content", content)].

(** [AncyTravelGuide._make_api_request] *)
Definition make_api_request (self : AncyTravelGuide) (user_message : pystr)
    (conversation_history : val) : M json :=
  let* headers := alloc (ODict
       [(lit "Authorization", str_val (lit "Bearer " ++ api_key self));
        (lit "Content-Type", str_val (lit "application/json"))]) in
  let* sys := alloc (turn "system" (str_val SYSTEM_PROMPT)) in
  let* messages := alloc (OList [VRef sys]) in
  let* tail := slice_last10 conversation_history in
  let* tail_list := alloc (OList tail) in
  let* _ := list_extend messages tail_list in
  let* user := alloc (turn "user" (str_val user_message)) in
  let* _ := list_append (VRef messages) (VRef user) in
  let* payload := alloc (ODict
       [(lit "model", str_val MODEL_NAME);
        (lit "messages", VRef messages);
        (lit "max_tokens", VPrim (JInt 1000));
        (lit "temperature", VPrim (JFloat (lit "0.8")));
        (lit "stream", VPrim (JBool false))]) in
  let* outcome := requests_post headers payload in
  let (response, r) := try_block outcome in
  match r with
  | Ok v => ret v
  | Raise e => lift (handle response e)
  end.

(** [AncyTravelGuide.chat] *)
Definition chat (self : AncyTravelGuide) (user_input : pystr)
    (conversation_history : val) : M json :=
  if negb (str_truthy (py_strip user_input)) then ret (JStr MSG_EMPTY_INPUT)
  else make_api_request self user_input conversation_history.

End Client.

(** ** Configuration *)

(** The value of [os.getenv("GROQ_API_KEY")]: [None] or a [str]. *)
Definition env_value (k : option pystr) : json :=
  match k with None => JNull | Some s => JStr s end.

Definition py_truthy (j : json) : bool :=
  match j with
  | JNull => false
  | JBool b => b
  | JInt n => negb (n =? 0)
  | JFloat r => true
  | JStr s => str_truthy s
  | JArr xs => match xs with [] => false | _ => true end
  | JObj kvs => match kvs with [] => false | _ => true end
  end.

(** [validate_api_key]: [api_key and api_key != PLACEHOLDER and len(api_key) > 10]
    evaluates to the first falsy operand, or to the last one. *)
Definition validate_api_key (api_key : option pystr) : json :=
  let v := env_value api_key in
  if negb (py_truthy v) then v
  else match api_key with
       | None => v
       | Some s =>
           if pystr_eqb s PLACEHOLDER_KEY then JBool false
           else JBool (10 <? Z.of_nat (List.length s))
       end.

(** ** The script body [main]

    One run of the Streamlit script: the key read at start-up, what the
    user did on the page before this run, and the remote service. *)

Record run_input : Type := mk_run_input {
  GROQ_API_KEY : option pystr;
  clear_clicked : bool;     (* st.button("... Clear Conversation") *)
  submit_button : bool;     (* st.form_submit_button("Send ...") *)
  user_input : pystr }.     (* st.text_input(...) *)

Definition MSG_KEY_ERROR : pystr :=
  10060 :: lit " Groq API key not found or invalid!".

Definition SETUP_INFO : pystr := lit "
        **To set up your API key:**
        1. Create a `.env` file in your project directory
        2. Add your Groq API key: `GROQ_API_KEY=your_api_key_here`
        3. Get your free API key at [console.groq.com](https://console.groq.com/)
        ".

Definition st_stop {A} : M A := raise (mk_exn StopException []).
Definition st_rerun {A} : M A := raise (mk_exn RerunException []).

Definition set_ss_messages (v : val) : M unit :=
  fun w => (Ok tt, mk_world (w_heap w) (w_sent w) (w_trace w) (Some v)
                            (ss_ancy_initialized w)).

Definition set_ss_ancy_initialized (b : bool) : M unit :=
  fun w => (Ok tt, mk_world (w_heap w) (w_sent w) (w_trace w) (ss_messages w)
                            (Some b)).

Definition attribute_error : exn := mk_exn OtherException (lit "st.session_state has no key").

Definition get_ss_messages : M val :=
  fun w => match ss_messages w with
           | Some v => (Ok v, w)
           | None => (Raise attribute_error, w)
           end.

Definition get_ss_ancy_initialized : M bool :=
  fun w => match ss_ancy_initialized w with
           | Some b => (Ok b, w)
           | None => (Raise attribute_error, w)
           end.

Definition initialize_session_state : M unit :=
  fun w =>
    (let* _ := match ss_messages w with
               | None => let* l := alloc (OList []) in set_ss_messages (VRef l)
               | Some _ => ret tt
               end in
     match ss_ancy_initialized w with
     | None => set_ss_ancy_initialized false
     | Some _ => ret tt
     end) w.

(** [message[k]] on an item of the conversation. *)
Definition val_getitem (v : val) (k : pystr) : M val :=
  match v with
  | VRef l =>
      let* o := load l in
      match o with
      | ODict kvs =>
          match assoc k kvs with
          | Some x => ret x
          | None => raise (mk_exn KeyError (repr_key k))
          end
      | OList _ => raise (type_error "list indices must be integers or slices, not str")
      end
  | VPrim j => let* x := lift (py_getitem j (IKey k)) in ret (VPrim x)
  end.

Definition is_user_role (v : val) : bool :=
  match v with VPrim (JStr s) => pystr_eqb s (lit "user") | _ => false end.

Fixpoint show_messages (ms : list val) : M unit :=
  match ms with
  | [] => ret tt
  | m :: r =>
      let* role := val_getitem m (lit "role") in
      let* content := val_getitem m (lit "content") in
      let* _ := emit (EvShowMessage (is_user_role role) content) in
      show_messages r
  end.

Definition display_conversation : M unit :=
  let* msgs := get_ss_messages in
  match msgs with
  | VRef l =>
      let* o := load l in
      match o with
      | OList ms => show_messages ms
      | ODict _ => raise (type_error "iterating a dict yields its keys")
      end
  | VPrim _ => raise (type_error "the conversation is not a list")
  end.

Section Main.

Variable net : request -> post_outcome.

(** The part of [main] after the key check, for a valid key [key]. *)
Definition main_session (inp : run_input) (key : pystr) : M unit :=
  let ancy := mk_ancy key in
  let* _ := emit (EvClientCreated key) in
  let* initialized := get_ss_ancy_initialized in
  let* _ := (if negb initialized
             then let* _ := emit EvWelcome in set_ss_ancy_initialized true
             else ret tt) in
  let* _ := emit EvClearButton in
  let* _ := (if clear_clicked inp
             then let* l := alloc (OList []) in
                  let* _ := set_ss_messages (VRef l) in
                  st_rerun
             else ret tt) in
  let* _ := display_conversation in
  let* _ := emit EvRule in
  let* _ := emit EvChatForm in
  let* _ := (if submit_button inp && str_truthy (user_input inp)
             then let* msgs := get_ss_messages in
                  let* u := alloc (turn "user" (str_val (user_input inp))) in
                  let* _ := list_append msgs (VRef u) in
                  let* _ := emit EvSpinner in
                  let* hist := get_ss_messages in
                  let* response := chat net ancy (user_input inp) hist in
                  let* msgs' := get_ss_messages in
                  let* a := alloc (turn "assistant" (VPrim response)) in
                  let* _ := list_append msgs' (VRef a) in
                  st_rerun
             else ret tt) in
  let* _ := emit EvRule in
  emit EvFooter.

(** [main] *)
Definition main (inp : run_input) : M unit :=
  let* _ := emit EvPageConfig in
  let* _ := emit EvStyle in
  let* _ := initialize_session_state in
  let key := GROQ_API_KEY inp in
  let stop_path := let* _ := emit (EvError MSG_KEY_ERROR) in
                   let* _ := emit (EvInfo SETUP_INFO) in
                   st_stop in
  if negb (py_truthy (env_value key)) || negb (py_truthy (validate_api_key key))
  then stop_path
  else match key with
       | Some k => main_session inp k
       | None => stop_path   (* not reached: None is falsy *)
       end.

End Main.

(** ** Reading the outgoing request back *)

(** What the [try] block and its [except] clauses make of one outcome
    of [requests.post]. *)
Definition outcome_result (o : post_outcome) : res json :=
  let (response, r) := try_block o in
  match r with
  | Ok v => Ok v
  | Raise e => handle response e
  end.

(** The [messages] list of the JSON body of a request. *)
Definition request_messages (rq : request) : option (list val) :=
  match nth_error (req_heap rq) (req_json rq) with
  | Some (ODict kvs) =>
      match assoc (lit "messages") kvs with
      | Some (VRef l) =>
          match nth_error (req_heap rq) l with
          | Some (OList xs) => Some xs
          | _ => None
          end
      | _ => None
      end
  | _ => None
  end.

(** The object a reference of a request's messages list points to. *)
Definition request_obj (rq : request) (v : val) : option obj :=
  match v with
  | VRef l => nth_error (req_heap rq) l
  | VPrim _ => None
  end.

(** The six objects [make_api_request] allocates, in order, when the heap
    held [n] objects before the call. *)
Definition request_objects (self : AncyTravelGuide) (um : pystr) (n : nat)
    (tail : list val) : list obj :=
  [ODict [(lit "Authorization", str_val (lit "Bearer " ++ api_key self));
          (lit "Content-Type", str_val (lit "application/json"))];
   turn "system" (str_val SYSTEM_PROMPT);
   OList (VRef (n + 1) :: tail ++ [VRef (n + 4)]);
   OList tail;
   turn "user" (str_val um);
   ODict [(lit "model", str_val MODEL_NAME);
          (lit "messages", VRef (n + 2));
          (lit "max_tokens", VPrim (JInt 1000));
          (lit "temperature", VPrim (JFloat (lit "0.8")));
          (lit "stream", VPrim (JBool false))]].

(** The field [choices[0].message.content] of a JSON document, read with
    JSON's own structure: object members by name, the first array item. *)
Definition content_field (j : json) : option json :=
  match j with
  | JObj kvs =>
      match assoc (lit "choices") kvs with
      | Some (JArr (JObj m :: _)) =>
          match assoc (lit "message") m with
          | Some (JObj c) => assoc (lit "content") c
          | _ => None
          end
      | _ => None
      end
  | _ => None
  end.

(** The strings [chat] returns in place of an answer. *)
Definition failure_message (s : pystr) : Prop :=
  s = MSG_EMPTY_INPUT \/ s = MSG_AUTH \/ s = MSG_RATE \/
  (exists status err, s = msg_api_error status err) \/
  s = MSG_CONNECTION \/ s = MSG_TIMEOUT \/ s = MSG_INVALID_FORMAT \/
  (exists err, s = msg_missing err) \/ (exists err, s = msg_unexpected err).

(** A conversation whose items are dicts with a [role] and a [content]
    key, as [main] stores them. *)
Definition stored_turns (h : heap) (ms : list val) : Prop :=
  Forall (fun v => exists j kvs role content,
                     v = VRef j /\ nth_error h j = Some (ODict kvs) /\
                     assoc (lit "role") kvs = Some role /\
                     assoc (lit "content") kvs = Some content) ms.

(** ** Frame relations for whole runs *)

Definition preserves (R : world -> world -> Prop) {A} (m : M A) : Prop :=
  forall w, R w (snd (m w)).

Definition same_sent (w w' : world) : Prop := w_sent w' = w_sent w.
Definition same_flag (w w' : world) : Prop :=
  ss_ancy_initialized w' = ss_ancy_initialized w.
Definition trace_no_welcome (w w' : world) : Prop :=
  exists evs, w_trace w' = w_trace w ++ evs /\ ~ In EvWelcome evs.
Definition sent_at_most_one (w w' : world) : Prop :=
  exists rs, w_sent w' = w_sent w ++ rs /\ (List.length rs <= 1)%nat.

(** A relation between the world before and after a step that every
    step of the page other than the welcome message, the flag update and
    the HTTP call keeps. *)
Record frame (R : world -> world -> Prop) : Prop := {
  fr_refl : forall w, R w w;
  fr_trans : forall w1 w2 w3, R w1 w2 -> R w2 w3 -> R w1 w3;
  fr_heap : forall h w, R w (set_heap h w);
  fr_emit : forall ev w, ev <> EvWelcome -> R w (snd (emit ev w));
  fr_set_messages : forall v w, R w (snd (set_ss_messages v w)) }.

(** The event that displaying a stored message emits. *)
Definition message_event (h : heap) (v : val) : option event :=
  match v with
  | VRef j =>
      match nth_error h j with
      | Some (ODict kvs) =>
          match assoc (lit "role") kvs, assoc (lit "content") kvs with
          | Some role, Some content => Some (EvShowMessage (is_user_role role) content)
          | _, _ => None
          end
      | _ => None
      end
  | VPrim _ => None
  end.


(** Response bodies used by the examples below. *)

Definition bonjour_body : json :=
  JObj [(lit "choices",
         JArr [JObj [(lit "message", JObj [(lit "content", JStr (lit "Bonjour!"))])]])].

Definition empty_choices_response : response :=
  mk_response 200 (lit "OK") GROQ_API_URL (BodyJSON (JObj [(lit "choices", JArr [])])).

Definition null_content_response : response :=
  mk_response 200 (lit "OK") GROQ_API_URL
    (BodyJSON (JObj [(lit "choices",
                      JArr [JObj [(lit "message", JObj [(lit "content", JNull)])]])])).

(** * Properties *)

(** ** Running the monad symbolically *)

Lemma bind_ret {A B} (a : A) (f : A -> M B) w : bind (ret a) f w = f a w.
Proof. reflexivity. Qed.

Lemma bind_assoc {A B C} (m : M A) (f : A -> M B) (g : B -> M C) w :
  bind (bind m f) g w = bind m (fun a => bind (f a) g) w.
Proof. unfold bind. destruct (m w) as [[a|e] w']; reflexivity. Qed.

Lemma bind_alloc {B} o (f : nat -> M B) w :
  bind (alloc o) f w = f (List.length (w_heap w)) (set_heap (w_heap w ++ [o]) w).
Proof. reflexivity. Qed.

Lemma bind_load {B} l o (f : obj -> M B) w :
  nth_error (w_heap w) l = Some o -> bind (load l) f w = f o w.
Proof. intros H. unfold bind, load. now rewrite H. Qed.

Lemma bind_store {B} l o (f : unit -> M B) w :
  (l < List.length (w_heap w))%nat ->
  bind (store l o) f w = f tt (set_heap (replace_nth l o (w_heap w)) w).
Proof. intros H. unfold bind, store. apply Nat.ltb_lt in H. now rewrite H. Qed.

Lemma replace_nth_app {A} (h t : list A) k x :
  replace_nth (List.length h + k) x (h ++ t) = h ++ replace_nth k x t.
Proof. induction h; cbn; [reflexivity | now rewrite IHh]. Qed.

Lemma replace_nth_app_at {A} (h t : list A) n k x :
  n = (List.length h + k)%nat -> replace_nth n x (h ++ t) = h ++ replace_nth k x t.
Proof. intros ->. apply replace_nth_app. Qed.

Lemma nth_error_app_at {A} (h t : list A) n k :
  n = (List.length h + k)%nat -> nth_error (h ++ t) n = nth_error t k.
Proof. intros ->. rewrite nth_error_app2 by lia. f_equal. lia. Qed.

Ltac heap_norm :=
  cbv beta iota;
  unfold set_heap;
  cbn [w_heap w_sent w_trace ss_messages ss_ancy_initialized];
  rewrite <- ?app_assoc; cbn [app]; rewrite ?length_app; cbn [List.length].

Ltac heap_lookup Hl :=
  heap_norm;
  first [ rewrite nth_error_app1; [exact Hl | apply nth_error_Some; congruence]
        | erewrite nth_error_app_at by reflexivity; cbn [nth_error]; reflexivity ].

Ltac step Hl :=
  heap_norm;
  first [ rewrite bind_assoc
        | rewrite bind_alloc
        | rewrite bind_ret
        | erewrite bind_load by heap_lookup Hl
        | rewrite bind_store by (heap_norm; lia);
          heap_norm; erewrite replace_nth_app_at by reflexivity; cbn [replace_nth]
        | unfold slice_last10 at 1
        | unfold list_extend at 1
        | unfold list_append at 1 ].

(** [_make_api_request] on a history list [xs] stored at [l]: it appends
    six fresh objects to the heap, makes exactly one request, and returns
    what the [try]/[except] makes of the outcome. *)
Lemma make_api_request_run net self um l xs w :
  nth_error (w_heap w) l = Some (OList xs) ->
  let n := List.length (w_heap w) in
  let h1 := w_heap w ++ request_objects self um n (last_n 10 xs) in
  let rq := mk_request GROQ_API_URL n (n + 5) 30 h1 in
  make_api_request net self um (VRef l) w =
    (outcome_result (net rq),
     mk_world h1 (w_sent w ++ [rq]) (w_trace w) (ss_messages w) (ss_ancy_initialized w)).
Proof.
  intros Hl; cbv zeta.
  destruct w as [h s t m a]; cbn [w_heap w_sent w_trace ss_messages ss_ancy_initialized] in *.
  unfold make_api_request.
  repeat step Hl.
  unfold bind at 1, requests_post. heap_norm.
  unfold outcome_result, request_objects.
  destruct (try_block _) as [resp [v|e]]; reflexivity.
Qed.

(** [chat] with a non-blank input is [_make_api_request]. *)
Lemma chat_run net self ut l xs w :
  str_truthy (py_strip ut) = true ->
  nth_error (w_heap w) l = Some (OList xs) ->
  let n := List.length (w_heap w) in
  let h1 := w_heap w ++ request_objects self ut n (last_n 10 xs) in
  let rq := mk_request GROQ_API_URL n (n + 5) 30 h1 in
  chat net self ut (VRef l) w =
    (outcome_result (net rq),
     mk_world h1 (w_sent w ++ [rq]) (w_trace w) (ss_messages w) (ss_ancy_initialized w)).
Proof.
  intros Hs Hl. unfold chat. rewrite Hs. cbn [negb].
  now apply make_api_request_run.
Qed.

(** The messages of the request built on a heap of [n] objects. *)
Lemma request_messages_built self ut h tail :
  let n := List.length h in
  let rq := mk_request GROQ_API_URL n (n + 5) 30
              (h ++ request_objects self ut n tail) in
  request_messages rq = Some (VRef (n + 1) :: tail ++ [VRef (n + 4)]) /\
  request_obj rq (VRef (n + 1)) = Some (turn "system" (str_val SYSTEM_PROMPT)) /\
  request_obj rq (VRef (n + 4)) = Some (turn "user" (str_val ut)).
Proof.
  cbv zeta. unfold request_messages, request_obj; cbn [req_heap req_json].
  rewrite (nth_error_app_at h _ _ 5 eq_refl). cbn [nth_error request_objects].
  unfold assoc at 1. cbn [pystr_eqb lit list_ascii_of_string map]. simpl.
  rewrite !(nth_error_app_at h _ _ _ eq_refl).
  repeat split; reflexivity.
Qed.

Lemma last_n_short {A} (xs : list A) : (List.length xs <= 10)%nat -> last_n 10 xs = xs.
Proof. intros H. unfold last_n. now replace (List.length xs - 10)%nat with 0%nat by lia. Qed.

Lemma last_n_long {A} (xs : list A) :
  (10 < List.length xs)%nat ->
  List.length (last_n 10 xs) = 10%nat /\ exists pre, xs = pre ++ last_n 10 xs.
Proof.
  intros H. unfold last_n. split.
  - rewrite length_skipn. lia.
  - exists (firstn (List.length xs - 10) xs). symmetry. apply firstn_skipn.
Qed.

(** ** C1: the outgoing payload *)

(** C1.  For a history list [xs] and a [user_text] that is not blank,
    [chat] sends exactly one request, whose [messages] are the system
    preamble turn, then the last [min(10, len(xs))] entries of the
    history (the same objects, in order), then a new turn
    [{role: user, content: user_text}]; for [len(xs) <= 10] the middle is
    the whole history, for [len(xs) > 10] exactly its last 10 entries. *)
Theorem chat_payload_shape net self user_text l xs w :
  nth_error (w_heap w) l = Some (OList xs) ->
  str_truthy (py_strip user_text) = true ->
  exists rq sys u,
    w_sent (snd (chat net self user_text (VRef l) w)) = w_sent w ++ [rq] /\
    request_messages rq = Some ([sys] ++ last_n 10 xs ++ [u]) /\
    request_obj rq sys = Some (turn "system" (str_val SYSTEM_PROMPT)) /\
    request_obj rq u = Some (turn "user" (str_val user_text)) /\
    List.length (last_n 10 xs) = Nat.min 10 (List.length xs) /\
    ((List.length xs <= 10)%nat -> last_n 10 xs = xs) /\
    ((10 < List.length xs)%nat -> exists pre, xs = pre ++ last_n 10 xs).
Proof.
  intros Hl Hs.
  rewrite (chat_run net self user_text l xs w Hs Hl); cbn [snd w_sent].
  destruct (request_messages_built self user_text (w_heap w) (last_n 10 xs))
    as (Hm & Hsys & Hu).
  eexists _, _, _. split; [reflexivity|].
  split; [exact Hm|]. split; [exact Hsys|]. split; [exact Hu|].
  split.
  - unfold last_n. rewrite length_skipn. lia.
  - split; [apply last_n_short|]. intros H. apply (last_n_long xs H).
Qed.

Lemma chat_payload_shape_witness :
  let w := mk_world [OList [VPrim (JStr (lit "a"))]] [] [] None None in
  nth_error (w_heap w) 0 = Some (OList [VPrim (JStr (lit "a"))]) /\
  str_truthy (py_strip (lit " hi ")) = true /\
  exists rq sys u,
    w_sent (snd (chat (fun _ => PostRaise (mk_exn ConnectionError [])) (mk_ancy (lit "k"))
                      (lit " hi ") (VRef 0) w)) = w_sent w ++ [rq] /\
    request_messages rq = Some ([sys] ++ last_n 10 [VPrim (JStr (lit "a"))] ++ [u]) /\
    request_obj rq sys = Some (turn "system" (str_val SYSTEM_PROMPT)) /\
    request_obj rq u = Some (turn "user" (str_val (lit " hi "))) /\
    List.length (last_n 10 [VPrim (JStr (lit "a"))]) = Nat.min 10 1 /\
    ((1 <= 10)%nat -> last_n 10 [VPrim (JStr (lit "a"))] = [VPrim (JStr (lit "a"))]) /\
    ((10 < 1)%nat -> exists pre, [VPrim (JStr (lit "a"))] = pre ++ last_n 10 [VPrim (JStr (lit "a"))]).
Proof.
  cbv zeta. split; [reflexivity|]. split; [vm_compute; reflexivity|].
  apply (chat_payload_shape _ _ (lit " hi ") 0 [VPrim (JStr (lit "a"))]
           (mk_world [OList [VPrim (JStr (lit "a"))]] [] [] None None));
    [reflexivity | vm_compute; reflexivity].
Defined.

(** ** C3: blank input *)

Lemma chat_blank net self user_text hist w :
  py_strip user_text = [] ->
  chat net self user_text hist w = (Ok (JStr MSG_EMPTY_INPUT), w).
Proof. intros H. unfold chat. rewrite H. reflexivity. Qed.

(** C3.  For a [user_text] whose [strip()] is empty, [chat] returns the
    fixed prompt-for-input string, whatever the history, and leaves the
    world as it was: no request is sent and nothing is allocated. *)
Theorem chat_blank_input net self user_text hist w :
  py_strip user_text = [] ->
  chat net self user_text hist w = (Ok (JStr MSG_EMPTY_INPUT), w).
Proof. exact (chat_blank net self user_text hist w). Qed.

Lemma chat_blank_input_witness :
  let net := fun _ : request => PostResp (mk_response 200 (lit "OK") [] (BodyJSON JNull)) in
  let w := mk_world [] [] [] None None in
  (py_strip (lit "") = [] /\
   chat net (mk_ancy (lit "k")) (lit "") (VRef 7) w = (Ok (JStr MSG_EMPTY_INPUT), w)) /\
  (py_strip (lit "   ") = [] /\
   chat net (mk_ancy (lit "k")) (lit "   ") (VPrim JNull) w = (Ok (JStr MSG_EMPTY_INPUT), w)).
Proof.
  cbv zeta. split; split; [reflexivity | apply chat_blank_input; reflexivity
                          | reflexivity | apply chat_blank_input; reflexivity].
Defined.

(** ** C8: the history is left as it was *)

(** C8.  A call of [chat] (and so of [_make_api_request]) on a history
    list stored at [l] changes no object that existed before the call:
    the history list keeps all its entries in order, its turn objects are
    untouched, and the session's reference to it is the same.  Only the
    fresh request list holds the last 10 entries. *)
Theorem chat_preserves_history net self user_text l xs w :
  nth_error (w_heap w) l = Some (OList xs) ->
  let w' := snd (chat net self user_text (VRef l) w) in
  (forall k, (k < List.length (w_heap w))%nat ->
             nth_error (w_heap w') k = nth_error (w_heap w) k) /\
  nth_error (w_heap w') l = Some (OList xs) /\
  ss_messages w' = ss_messages w.
Proof.
  intros Hl; cbv zeta.
  destruct (str_truthy (py_strip user_text)) eqn:Hs.
  - rewrite (chat_run net self user_text l xs w Hs Hl). cbn [snd w_heap ss_messages].
    assert (Hk : forall k, (k < List.length (w_heap w))%nat ->
              nth_error (w_heap w ++ request_objects self user_text
                           (List.length (w_heap w)) (last_n 10 xs)) k
              = nth_error (w_heap w) k)
      by (intros; apply nth_error_app1; assumption).
    split; [exact Hk|]. split; [|reflexivity].
    rewrite Hk; [exact Hl|]. apply nth_error_Some. congruence.
  - assert (Hb : py_strip user_text = []) by (destruct (py_strip user_text); easy).
    rewrite (chat_blank net self user_text (VRef l) w Hb). cbn [snd].
    auto.
Qed.

Lemma chat_preserves_history_witness :
  let hist := [OList [VRef 1]; turn "user" (str_val (lit "hello"))] in
  nth_error hist 0 = Some (OList [VRef 1]) /\
  let w' := snd (chat (fun _ => PostRaise (mk_exn ReadTimeout [])) (mk_ancy (lit "k"))
                      (lit "hello") (VRef 0) (mk_world hist [] [] (Some (VRef 0)) (Some true))) in
  (forall k, (k < List.length hist)%nat -> nth_error (w_heap w') k = nth_error hist k) /\
  nth_error (w_heap w') 0 = Some (OList [VRef 1]) /\
  ss_messages w' = Some (VRef 0).
Proof.
  cbv zeta. split; [reflexivity|].
  apply (chat_preserves_history _ _ (lit "hello") 0 [VRef 1]
           (mk_world [OList [VRef 1]; turn "user" (str_val (lit "hello"))] [] []
                     (Some (VRef 0)) (Some true))).
  reflexivity.
Defined.

(** ** Outcomes of the call *)

(** When the service gives the same outcome to every request, that is
    what a non-blank [chat] returns. *)
Lemma chat_result_const net self ut l xs w o :
  (forall rq, net rq = o) ->
  str_truthy (py_strip ut) = true ->
  nth_error (w_heap w) l = Some (OList xs) ->
  fst (chat net self ut (VRef l) w) = outcome_result o.
Proof.
  intros Hn Hs Hl. rewrite (chat_run net self ut l xs w Hs Hl). cbn [fst].
  now rewrite Hn.
Qed.

Lemma raise_for_status_ok r : status_code r < 400 -> raise_for_status r = None.
Proof.
  intros H. unfold raise_for_status.
  replace (400 <=? status_code r) with false by (symmetry; apply Z.leb_gt; lia).
  replace (500 <=? status_code r) with false by (symmetry; apply Z.leb_gt; lia).
  reflexivity.
Qed.

Lemma raise_for_status_error r :
  400 <= status_code r < 600 ->
  exists msg, raise_for_status r = Some (mk_exn HTTPError msg).
Proof.
  intros H. unfold raise_for_status.
  destruct (Z_lt_le_dec (status_code r) 500).
  - replace ((400 <=? status_code r) && (status_code r <? 500)) with true
      by (symmetry; apply andb_true_iff; split; [apply Z.leb_le | apply Z.ltb_lt]; lia).
    eexists; reflexivity.
  - replace (status_code r <? 500) with false by (symmetry; apply Z.ltb_ge; lia).
    replace ((500 <=? status_code r) && (status_code r <? 600)) with true
      by (symmetry; apply andb_true_iff; split; [apply Z.leb_le | apply Z.ltb_lt]; lia).
    rewrite andb_false_r. eexists; reflexivity.
Qed.

Lemma outcome_success_body r j :
  status_code r < 400 -> resp_body r = BodyJSON j ->
  outcome_result (PostResp r) =
    match extract_content j with
    | Ok v => Ok v
    | Raise e => handle (Some r) e
    end.
Proof.
  intros Hs Hb. unfold outcome_result, try_block.
  rewrite (raise_for_status_ok r Hs). unfold response_json. rewrite Hb. reflexivity.
Qed.

Lemma extract_content_field j v : content_field j = Some v -> extract_content j = Ok v.
Proof.
  unfold content_field, extract_content.
  generalize (lit "choices") (lit "message") (lit "content"); intros kch km kc.
  destruct j as [| | | | |xs|kvs]; try (intros H; discriminate H).
  cbn [py_getitem res_bind].
  destruct (assoc kch kvs) as [[| | | | |cs|]|]; try (intros H; discriminate H).
  destruct cs as [|[| | | | | |m] rest]; try (intros H; discriminate H).
  simpl.
  destruct (assoc km m) as [[| | | | | |c]|]; try (intros H; discriminate H).
  cbn [py_getitem res_bind].
  destruct (assoc kc c); intros H; [injection H as ->; reflexivity | discriminate H].
Qed.

(** ** C4: HTTP error statuses *)

(** C4.  When the service answers with an HTTP error status (4xx or
    5xx), [chat] returns, without raising, the authentication-failure
    message for 401, else the rate-limit message for 429, else the
    generic API-error message, which contains the status code. *)
Theorem chat_http_error net self user_text l xs w r :
  nth_error (w_heap w) l = Some (OList xs) ->
  str_truthy (py_strip user_text) = true ->
  (forall rq, net rq = PostResp r) ->
  400 <= status_code r < 600 ->
  let result := fst (chat net self user_text (VRef l) w) in
  (status_code r = 401 -> result = Ok (JStr MSG_AUTH)) /\
  (status_code r = 429 -> result = Ok (JStr MSG_RATE)) /\
  (status_code r <> 401 -> status_code r <> 429 ->
     exists err, result = Ok (JStr (msg_api_error (status_code r) err)) /\
     exists pre post, msg_api_error (status_code r) err = pre ++ str_of_int (status_code r) ++ post).
Proof.
  intros Hl Hs Hn Hst; cbv zeta.
  rewrite (chat_result_const net self user_text l xs w _ Hn Hs Hl).
  destruct (raise_for_status_error r Hst) as [msg Hr].
  unfold outcome_result, try_block. rewrite Hr.
  unfold handle, isinstance; cbn [exn_cls catches existsb catch_class_eqb orb exn_str].
  split; [intros ->; reflexivity|]. split; [intros ->; reflexivity|].
  intros H1 H2.
  replace (status_code r =? 401) with false by (symmetry; apply Z.eqb_neq; exact H1).
  replace (status_code r =? 429) with false by (symmetry; apply Z.eqb_neq; exact H2).
  exists msg. split; [reflexivity|].
  exists (128683 :: lit " API error ("), (lit "): " ++ msg). reflexivity.
Qed.

Lemma chat_http_error_witness :
  let r := mk_response 503 (lit "Service Unavailable") GROQ_API_URL (BodyInvalid []) in
  let w := mk_world [OList []] [] [] None None in
  nth_error (w_heap w) 0 = Some (OList []) /\
  str_truthy (py_strip (lit "Paris?")) = true /\
  (forall rq : request, (fun _ => PostResp r) rq = PostResp r) /\
  400 <= status_code r < 600 /\
  let result := fst (chat (fun _ => PostResp r) (mk_ancy (lit "k")) (lit "Paris?") (VRef 0) w) in
  (status_code r = 401 -> result = Ok (JStr MSG_AUTH)) /\
  (status_code r = 429 -> result = Ok (JStr MSG_RATE)) /\
  (status_code r <> 401 -> status_code r <> 429 ->
     exists err, result = Ok (JStr (msg_api_error (status_code r) err)) /\
     exists pre post, msg_api_error (status_code r) err = pre ++ str_of_int (status_code r) ++ post).
Proof.
  cbv zeta. split; [reflexivity|]. split; [vm_compute; reflexivity|].
  split; [reflexivity|]. split; [cbn; lia|].
  apply (chat_http_error _ _ (lit "Paris?") 0 [] (mk_world [OList []] [] [] None None)
           (mk_response 503 (lit "Service Unavailable") GROQ_API_URL (BodyInvalid [])));
    [reflexivity | vm_compute; reflexivity | reflexivity | cbn; lia].
Defined.

(** ** C5: a well-formed success *)

(** C5.  When the service answers 2xx with a JSON body that has the field
    [choices[0].message.content], [chat] returns that field's value as
    it is. *)
Theorem chat_success_verbatim net self user_text l xs w r j v :
  nth_error (w_heap w) l = Some (OList xs) ->
  str_truthy (py_strip user_text) = true ->
  (forall rq, net rq = PostResp r) ->
  200 <= status_code r < 300 ->
  resp_body r = BodyJSON j ->
  content_field j = Some v ->
  fst (chat net self user_text (VRef l) w) = Ok v.
Proof.
  intros Hl Hs Hn Hst Hb Hc.
  rewrite (chat_result_const net self user_text l xs w _ Hn Hs Hl).
  rewrite (outcome_success_body r j) by (assumption || lia).
  now rewrite (extract_content_field j v Hc).
Qed.


Lemma chat_success_verbatim_witness :
  let r := mk_response 200 (lit "OK") GROQ_API_URL (BodyJSON bonjour_body) in
  let w := mk_world [OList []] [] [] None None in
  content_field bonjour_body = Some (JStr (lit "Bonjour!")) /\
  fst (chat (fun _ => PostResp r) (mk_ancy (lit "k")) (lit "Bonjour?") (VRef 0) w)
    = Ok (JStr (lit "Bonjour!")).
Proof.
  cbv zeta. split; [vm_compute; reflexivity|].
  apply (chat_success_verbatim _ _ (lit "Bonjour?") 0 [] (mk_world [OList []] [] [] None None)
           (mk_response 200 (lit "OK") GROQ_API_URL (BodyJSON bonjour_body)) bonjour_body);
    [reflexivity | vm_compute; reflexivity | reflexivity | cbn; lia | reflexivity
    | vm_compute; reflexivity].
Defined.

(** ** C6: fields missing from the body *)


(** C6, as stated, fails: with an empty [choices] list, [result["choices"][0]]
    raises [IndexError], which is not a [KeyError], so the generic
    unexpected-error message is returned, not the missing-field one. *)
Lemma chat_empty_choices_counterexample :
  fst (chat (fun _ => PostResp empty_choices_response) (mk_ancy (lit "k")) (lit "hi")
            (VRef 0) (mk_world [OList []] [] [] None None))
    = Ok (JStr (msg_unexpected (lit "list index out of range"))) /\
  forall err,
    fst (chat (fun _ => PostResp empty_choices_response) (mk_ancy (lit "k")) (lit "hi")
              (VRef 0) (mk_world [OList []] [] [] None None))
      <> Ok (JStr (msg_missing err)).
Proof.
  assert (E : fst (chat (fun _ => PostResp empty_choices_response) (mk_ancy (lit "k")) (lit "hi")
                        (VRef 0) (mk_world [OList []] [] [] None None))
              = Ok (JStr (msg_unexpected (lit "list index out of range"))))
    by (vm_compute; reflexivity).
  split; [exact E|].
  intros err. rewrite E. unfold msg_unexpected, msg_missing. intros H.
  injection H as H. discriminate H.
Qed.

Lemma handle_key_error r k :
  handle (Some r) (mk_exn KeyError (repr_key k)) = Ok (JStr (msg_missing (repr_key k))).
Proof. reflexivity. Qed.

Lemma raise_for_status_nonerror r :
  (status_code r < 400 \/ 600 <= status_code r) -> raise_for_status r = None.
Proof.
  intros [H|H]; [now apply raise_for_status_ok|].
  unfold raise_for_status.
  replace (status_code r <? 500) with false by (symmetry; apply Z.ltb_ge; lia).
  replace (status_code r <? 600) with false by (symmetry; apply Z.ltb_ge; lia).
  rewrite !andb_false_r. reflexivity.
Qed.

Lemma outcome_nonerror_body r j :
  (status_code r < 400 \/ 600 <= status_code r) -> resp_body r = BodyJSON j ->
  outcome_result (PostResp r) =
    match extract_content j with
    | Ok v => Ok v
    | Raise e => handle (Some r) e
    end.
Proof.
  intros Hs Hb. unfold outcome_result, try_block.
  rewrite (raise_for_status_nonerror r Hs). unfold response_json. rewrite Hb. reflexivity.
Qed.

(** C6, amended.  When the service answers with a status that is not an
    HTTP error (below 400 or from 600 on) and a JSON object, and a key of
    the path [choices[0].message.content] is absent from the object it is
    looked up in, [chat] returns the missing-field message naming that key
    ([repr] of it); when [choices] is an object, the lookup of [0] fails
    the same way and the message names [0].  When [choices] is an empty
    list, the lookup of [0] raises [IndexError] and [chat] returns the
    unexpected-error message for "list index out of range". *)
Theorem chat_missing_key net self user_text l xs w r kvs :
  nth_error (w_heap w) l = Some (OList xs) ->
  str_truthy (py_strip user_text) = true ->
  (forall rq, net rq = PostResp r) ->
  (status_code r < 400 \/ 600 <= status_code r) ->
  resp_body r = BodyJSON (JObj kvs) ->
  let result := fst (chat net self user_text (VRef l) w) in
  (assoc (lit "choices") kvs = None ->
     result = Ok (JStr (msg_missing (repr_key (lit "choices"))))) /\
  (forall cs,
     assoc (lit "choices") kvs = Some (JObj cs) ->
     result = Ok (JStr (msg_missing (str_of_int 0)))) /\
  (assoc (lit "choices") kvs = Some (JArr []) ->
     result = Ok (JStr (msg_unexpected (lit "list index out of range")))) /\
  (forall m rest,
     assoc (lit "choices") kvs = Some (JArr (JObj m :: rest)) ->
     assoc (lit "message") m = None ->
     result = Ok (JStr (msg_missing (repr_key (lit "message"))))) /\
  (forall m rest c,
     assoc (lit "choices") kvs = Some (JArr (JObj m :: rest)) ->
     assoc (lit "message") m = Some (JObj c) ->
     assoc (lit "content") c = None ->
     result = Ok (JStr (msg_missing (repr_key (lit "content"))))).
Proof.
  intros Hl Hs Hn Hst Hb; cbv zeta.
  rewrite (chat_result_const net self user_text l xs w _ Hn Hs Hl).
  rewrite (outcome_nonerror_body r (JObj kvs)) by assumption.
  unfold extract_content.
  split; [|split; [|split; [|split]]].
  - intros Hc. cbn [py_getitem res_bind]. rewrite Hc. apply handle_key_error.
  - intros cs Hc. cbn [py_getitem res_bind]. rewrite Hc. reflexivity.
  - intros Hc. cbn [py_getitem res_bind]. rewrite Hc. reflexivity.
  - intros m rest Hc Hm. cbn [py_getitem res_bind]. rewrite Hc. simpl.
    rewrite Hm. apply handle_key_error.
  - intros m rest c Hc Hm Hcc. cbn [py_getitem res_bind]. rewrite Hc. simpl.
    rewrite Hm. cbn [py_getitem res_bind]. rewrite Hcc. apply handle_key_error.
Qed.

Lemma chat_missing_key_witness :
  let r := mk_response 200 (lit "OK") GROQ_API_URL
             (BodyJSON (JObj [(lit "choices", JArr [])])) in
  let result := fst (chat (fun _ => PostResp r) (mk_ancy (lit "k")) (lit "hi") (VRef 0)
                          (mk_world [OList []] [] [] None None)) in
  result = Ok (JStr (msg_unexpected (lit "list index out of range"))).
Proof.
  cbv zeta.
  apply (chat_missing_key _ _ (lit "hi") 0 [] (mk_world [OList []] [] [] None None)
           (mk_response 200 (lit "OK") GROQ_API_URL (BodyJSON (JObj [(lit "choices", JArr [])])))
           [(lit "choices", JArr [])]);
    [reflexivity | vm_compute; reflexivity | reflexivity | left; cbn; lia | reflexivity
    | reflexivity].
Defined.

(** ** C2: no fault reaches the caller *)

Lemma py_getitem_raises o i e :
  py_getitem o i = Raise e ->
  exn_cls e = KeyError \/ exn_cls e = IndexError \/ exn_cls e = TypeError.
Proof.
  destruct o as [|b|z|f|s|xs|kvs], i as [k|n]; cbn [py_getitem];
    repeat match goal with
           | |- context [match ?x with _ => _ end] => destruct x
           end;
    intros H; first [discriminate H | injection H as <-; cbn; auto].
Qed.

Lemma extract_content_raises j e :
  extract_content j = Raise e ->
  exn_cls e = KeyError \/ exn_cls e = IndexError \/ exn_cls e = TypeError.
Proof.
  unfold extract_content, res_bind.
  destruct (py_getitem j _) as [c|e1] eqn:E1; [|intros H; injection H as <-; eapply py_getitem_raises; eauto].
  destruct (py_getitem c _) as [c0|e2] eqn:E2; [|intros H; injection H as <-; eapply py_getitem_raises; eauto].
  destruct (py_getitem c0 _) as [m|e3] eqn:E3; [|intros H; injection H as <-; eapply py_getitem_raises; eauto].
  intros H. eapply py_getitem_raises; eauto.
Qed.

(** Every outcome that [requests.post] can produce — a response, or an
    [Exception] other than [HTTPError] — is turned into a returned value:
    a failure message, or on a 2xx/3xx JSON body the content field. *)
Ltac fm_solve :=
  match goal with
  | |- _ \/ _ => first [ left; fm_solve | right; fm_solve ]
  | |- exists _, _ => eexists; fm_solve
  | |- _ /\ _ => split; fm_solve
  | |- _ = _ => reflexivity
  end.

Lemma outcome_result_total o :
  (forall e, o = PostRaise e -> isinstance e CException = true /\ exn_cls e <> HTTPError) ->
  exists v, outcome_result o = Ok v /\
    ((exists s, v = JStr s /\ failure_message s) \/
     (exists r j, o = PostResp r /\ raise_for_status r = None /\
                  resp_body r = BodyJSON j /\ extract_content j = Ok v)).
Proof.
  unfold failure_message.
  intros Ho. destruct o as [e|r].
  - destruct (Ho e eq_refl) as [Hex Hcls]. clear Ho.
    unfold outcome_result, try_block, handle.
    destruct e as [c m]; cbn [exn_cls] in *.
    destruct c; try discriminate Hex; try (exfalso; apply Hcls; reflexivity);
      cbn [isinstance exn_cls catches existsb catch_class_eqb orb exn_str]; fm_solve.
  - unfold outcome_result, try_block.
    destruct (raise_for_status r) as [e|] eqn:Er.
    + unfold raise_for_status in Er.
      assert (Hc : exn_cls e = HTTPError).
      { destruct ((400 <=? status_code r) && (status_code r <? 500));
          [injection Er as <-; reflexivity|].
        destruct ((500 <=? status_code r) && (status_code r <? 600));
          [injection Er as <-; reflexivity|discriminate Er]. }
      unfold handle, isinstance. rewrite Hc. cbn [catches existsb catch_class_eqb orb].
      destruct (status_code r =? 401); [|destruct (status_code r =? 429)]; fm_solve.
    + unfold response_json. destruct (resp_body r) as [j|msg] eqn:Eb.
      * cbn [res_bind]. destruct (extract_content j) as [v|e] eqn:Ee.
        -- exists v. split; [reflexivity|]. right. exists r, j. auto.
        -- destruct (extract_content_raises j e Ee) as [Hc|[Hc|Hc]];
             unfold handle, isinstance; rewrite Hc;
             cbn [catches existsb catch_class_eqb orb]; fm_solve.
      * cbn [res_bind]. unfold handle, isinstance.
        cbn [exn_cls catches existsb catch_class_eqb orb]. fm_solve.
Qed.


(** C2, as stated, fails: the value of [choices[0].message.content] is
    returned as it is, so a body whose content is [null] makes [chat]
    return [None], not a string. *)
Lemma chat_null_content_counterexample :
  fst (chat (fun _ => PostResp null_content_response) (mk_ancy (lit "k")) (lit "hi")
            (VRef 0) (mk_world [OList []] [] [] None None)) = Ok JNull /\
  forall s,
    fst (chat (fun _ => PostResp null_content_response) (mk_ancy (lit "k")) (lit "hi")
              (VRef 0) (mk_world [OList []] [] [] None None)) <> Ok (JStr s).
Proof.
  assert (E : fst (chat (fun _ => PostResp null_content_response) (mk_ancy (lit "k")) (lit "hi")
                        (VRef 0) (mk_world [OList []] [] [] None None)) = Ok JNull)
    by (vm_compute; reflexivity).
  split; [exact E|]. intros s. rewrite E. discriminate.
Qed.

(** C2, amended.  For a history list, any input, and any outcome of
    [requests.post] (a response with any status and body, or an
    [Exception] other than [HTTPError], which [requests.post] does not
    raise itself), [chat] returns and does not raise.  What it returns
    is either one of the fixed failure strings, or, when the call
    succeeded with a JSON body holding the content field, that field's
    value as it is (a string, or any other JSON value). *)
Theorem chat_never_raises net self user_text l xs w :
  nth_error (w_heap w) l = Some (OList xs) ->
  (forall rq e, net rq = PostRaise e ->
                isinstance e CException = true /\ exn_cls e <> HTTPError) ->
  exists v, fst (chat net self user_text (VRef l) w) = Ok v /\
    ((exists s, v = JStr s /\ failure_message s) \/
     (exists rq r j, In rq (w_sent (snd (chat net self user_text (VRef l) w))) /\
                     net rq = PostResp r /\ raise_for_status r = None /\
                     resp_body r = BodyJSON j /\ extract_content j = Ok v)).
Proof.
  intros Hl Hn.
  destruct (str_truthy (py_strip user_text)) eqn:Hs.
  - rewrite (chat_run net self user_text l xs w Hs Hl). cbn [fst snd w_sent].
    set (rq := mk_request _ _ _ _ _).
    destruct (outcome_result_total (net rq)) as (v & Hv & Hcase).
    { intros e He. exact (Hn rq e He). }
    exists v. split; [exact Hv|].
    destruct Hcase as [Hf | (r & j & Hr & Hrs & Hb & Hc)]; [left; exact Hf|].
    right. exists rq, r, j. split; [apply in_or_app; right; left; reflexivity|]. auto.
  - assert (Hb : py_strip user_text = []) by (destruct (py_strip user_text); easy).
    rewrite (chat_blank net self user_text (VRef l) w Hb). cbn [fst].
    exists (JStr MSG_EMPTY_INPUT). split; [reflexivity|]. left.
    eexists; split; [reflexivity|]. left; reflexivity.
Qed.

Lemma chat_never_raises_witness :
  let net := fun _ : request => PostRaise (mk_exn ConnectTimeout (lit "timed out")) in
  exists v, fst (chat net (mk_ancy (lit "k")) (lit "hi") (VRef 0)
                      (mk_world [OList []] [] [] None None)) = Ok v /\
    ((exists s, v = JStr s /\ failure_message s) \/
     (exists rq r j, In rq (w_sent (snd (chat net (mk_ancy (lit "k")) (lit "hi") (VRef 0)
                                              (mk_world [OList []] [] [] None None)))) /\
                     net rq = PostResp r /\ raise_for_status r = None /\
                     resp_body r = BodyJSON j /\ extract_content j = Ok v)).
Proof.
  cbv zeta.
  apply (chat_never_raises _ _ (lit "hi") 0 [] (mk_world [OList []] [] [] None None));
    [reflexivity|].
  intros rq e H. injection H as <-. split; [reflexivity | discriminate].
Defined.

(** ** C9: key validation *)

Lemma pystr_eqb_spec a b : pystr_eqb a b = true <-> a = b.
Proof.
  revert b; induction a as [|x a IH]; intros [|y b]; cbn; try (split; congruence).
  rewrite andb_true_iff, Z.eqb_eq, IH. split; [intros [-> ->]; reflexivity|].
  intros H; injection H as -> ->; auto.
Qed.

Lemma validate_api_key_spec k :
  py_truthy (validate_api_key k) = true <->
  exists s, k = Some s /\ s <> [] /\ s <> PLACEHOLDER_KEY /\ (10 < List.length s)%nat.
Proof.
  unfold validate_api_key. destruct k as [s|]; cbn [env_value py_truthy negb].
  - destruct s as [|c s'] eqn:Es; cbn [str_truthy negb py_truthy].
    + split; [discriminate|]. intros (s0 & H & Hne & _). injection H as <-. congruence.
    + rewrite <- Es. destruct (pystr_eqb s PLACEHOLDER_KEY) eqn:Ep; cbn [py_truthy].
      * apply pystr_eqb_spec in Ep. split; [discriminate|].
        intros (s0 & H & _ & Hp & _). injection H as <-. contradiction.
      * rewrite Z.ltb_lt. split.
        -- intros H. exists s. split; [reflexivity|]. split; [subst; discriminate|].
           split; [intros He; apply pystr_eqb_spec in He; congruence | lia].
        -- intros (s0 & H & _ & _ & Hl). injection H as <-. lia.
  - split; [discriminate|]. intros (s & H & _). discriminate H.
Qed.

(** C9.  [validate_api_key] gives a truthy value exactly for a key that is
    present, non-empty, not the placeholder, and longer than 10 code
    points; for [None], [""], the placeholder or a short key it gives a
    falsy one. *)
Theorem validate_api_key_accepts k :
  py_truthy (validate_api_key k) = true <->
  exists s, k = Some s /\ s <> [] /\ s <> PLACEHOLDER_KEY /\ (10 < List.length s)%nat.
Proof. exact (validate_api_key_spec k). Qed.

(** ** C10: start-up with an invalid key *)

Lemma initialize_session_state_run w :
  exists w', initialize_session_state w = (Ok tt, w') /\
             w_sent w' = w_sent w /\ w_trace w' = w_trace w.
Proof.
  destruct w as [h s t [m|] [a|]]; unfold initialize_session_state; cbn;
    eexists; (split; [reflexivity|]); auto.
Qed.

Lemma key_rejected k :
  (k = None \/ exists s, k = Some s /\ (s = [] \/ s = PLACEHOLDER_KEY \/ (List.length s <= 10)%nat)) ->
  negb (py_truthy (env_value k)) || negb (py_truthy (validate_api_key k)) = true.
Proof.
  intros Hk.
  destruct (py_truthy (validate_api_key k)) eqn:Ev; [|apply orb_true_r].
  apply validate_api_key_spec in Ev. destruct Ev as (s & -> & Hne & Hp & Hlen).
  exfalso. destruct Hk as [H|(s0 & H & Hs)]; [discriminate H|].
  injection H as <-. destruct Hs as [Hs|[Hs|Hs]]; [contradiction|contradiction|lia].
Qed.

(** C10.  A run of [main] whose key is absent, empty, the placeholder or
    at most 10 code points long shows the error and the setup
    instructions and stops ([st.stop()]): it builds no client, sends no
    request and shows nothing of the conversation. *)
Theorem main_invalid_key_halts net inp w :
  (GROQ_API_KEY inp = None \/
   exists s, GROQ_API_KEY inp = Some s /\
             (s = [] \/ s = PLACEHOLDER_KEY \/ (List.length s <= 10)%nat)) ->
  let '(r, w') := main net inp w in
  r = Raise (mk_exn StopException []) /\
  w_sent w' = w_sent w /\
  exists evs, w_trace w' = w_trace w ++ evs /\
    evs = [EvPageConfig; EvStyle; EvError MSG_KEY_ERROR; EvInfo SETUP_INFO] /\
    (forall k, ~ In (EvClientCreated k) evs).
Proof.
  intros Hk. pose proof (key_rejected _ Hk) as Hc.
  unfold main. rewrite Hc.
  unfold bind at 1 2, emit at 1 2. cbn [w_heap w_sent w_trace ss_messages ss_ancy_initialized].
  unfold bind at 1.
  destruct (initialize_session_state_run
              (mk_world (w_heap w) (w_sent w) ((w_trace w ++ [EvPageConfig]) ++ [EvStyle])
                        (ss_messages w) (ss_ancy_initialized w))) as (w1 & E1 & Hs1 & Ht1).
  rewrite E1. cbv beta iota. unfold bind, emit, st_stop, raise.
  cbn [w_sent w_trace] in *.
  split; [reflexivity|]. split; [exact Hs1|].
  rewrite Ht1, <- !app_assoc. eexists. split; [reflexivity|]. split; [reflexivity|].
  intros k Hin. cbn in Hin. intuition discriminate.
Qed.

Lemma main_invalid_key_halts_witness :
  let inp := mk_run_input (Some (lit "gsk_short")) false true (lit "hi") in
  let w := mk_world [] [] [] None None in
  (GROQ_API_KEY inp = None \/
   exists s, GROQ_API_KEY inp = Some s /\
             (s = [] \/ s = PLACEHOLDER_KEY \/ (List.length s <= 10)%nat)) /\
  let '(r, w') := main (fun _ => PostRaise (mk_exn ConnectionError [])) inp w in
  r = Raise (mk_exn StopException []) /\
  w_sent w' = w_sent w /\
  exists evs, w_trace w' = w_trace w ++ evs /\
    evs = [EvPageConfig; EvStyle; EvError MSG_KEY_ERROR; EvInfo SETUP_INFO] /\
    (forall k, ~ In (EvClientCreated k) evs).
Proof.
  cbv zeta. split.
  - right. eexists. split; [reflexivity|]. right; right. cbn. lia.
  - apply main_invalid_key_halts. right. eexists. split; [reflexivity|].
    right; right. cbn. lia.
Defined.

(** ** C7: the submitted turn is sent twice *)

Lemma bind_ok {A B} (m : M A) (f : A -> M B) w a w' :
  m w = (Ok a, w') -> bind m f w = f a w'.
Proof. intros H. unfold bind. now rewrite H. Qed.

Lemma bind_emit {B} ev (f : unit -> M B) w :
  bind (emit ev) f w =
  f tt (mk_world (w_heap w) (w_sent w) (w_trace w ++ [ev]) (ss_messages w) (ss_ancy_initialized w)).
Proof. reflexivity. Qed.

Lemma bind_get_ss_messages {B} (f : val -> M B) w v :
  ss_messages w = Some v -> bind get_ss_messages f w = f v w.
Proof. intros H. unfold bind, get_ss_messages. now rewrite H. Qed.

Lemma bind_get_ss_ancy_initialized {B} (f : bool -> M B) w b :
  ss_ancy_initialized w = Some b -> bind get_ss_ancy_initialized f w = f b w.
Proof. intros H. unfold bind, get_ss_ancy_initialized. now rewrite H. Qed.

Lemma bind_set_ss_ancy_initialized {B} b (f : unit -> M B) w :
  bind (set_ss_ancy_initialized b) f w =
  f tt (mk_world (w_heap w) (w_sent w) (w_trace w) (ss_messages w) (Some b)).
Proof. reflexivity. Qed.

Lemma show_messages_run ms : forall w,
  stored_turns (w_heap w) ms ->
  exists evs, show_messages ms w =
    (Ok tt, mk_world (w_heap w) (w_sent w) (w_trace w ++ evs) (ss_messages w) (ss_ancy_initialized w)).
Proof.
  induction ms as [|v ms IH]; intros w Hs.
  - exists []. destruct w; cbn. now rewrite app_nil_r.
  - inversion Hs as [|? ? (j & kvs & role & content & -> & Hj & Hr & Hc) Hrest]; subst.
    cbn [show_messages]. unfold val_getitem.
    rewrite bind_assoc. rewrite (bind_load _ _ _ _ Hj). cbv beta iota. rewrite Hr, bind_ret.
    rewrite bind_assoc. rewrite (bind_load _ _ _ _ Hj). cbv beta iota. rewrite Hc, bind_ret.
    rewrite bind_emit.
    destruct (IH (mk_world (w_heap w) (w_sent w) (w_trace w ++ [EvShowMessage (is_user_role role) content])
                           (ss_messages w) (ss_ancy_initialized w)) Hrest) as [evs Hev].
    rewrite Hev. exists (EvShowMessage (is_user_role role) content :: evs). cbn.
    now rewrite <- app_assoc.
Qed.

Lemma nth_error_replace_nth_same {A} (xs : list A) l x :
  (l < List.length xs)%nat -> nth_error (replace_nth l x xs) l = Some x.
Proof.
  revert l; induction xs as [|y xs IH]; intros [|l] H; cbn in *; try lia; auto.
  apply IH. lia.
Qed.

Lemma nth_error_replace_nth_other {A} (xs : list A) l k x :
  k <> l -> nth_error (replace_nth l x xs) k = nth_error xs k.
Proof.
  revert l k; induction xs as [|y xs IH]; intros [|l] [|k] H; cbn; auto; try lia.
Qed.

Lemma length_replace_nth {A} (xs : list A) l x :
  List.length (replace_nth l x xs) = List.length xs.
Proof. revert l; induction xs; intros [|l]; cbn; auto. Qed.

Lemma initialize_session_state_noop w m a :
  ss_messages w = Some m -> ss_ancy_initialized w = Some a ->
  initialize_session_state w = (Ok tt, w).
Proof. intros Hm Ha. unfold initialize_session_state. now rewrite Hm, Ha. Qed.

Lemma bind_initialize_noop {B} (f : unit -> M B) w m a :
  ss_messages w = Some m -> ss_ancy_initialized w = Some a ->
  bind initialize_session_state f w = f tt w.
Proof. intros Hm Ha. apply bind_ok. now apply (initialize_session_state_noop w m a). Qed.

Ltac mstep Hl Hs :=
  heap_norm;
  first [ rewrite bind_assoc
        | rewrite bind_ret
        | rewrite bind_emit
        | rewrite bind_set_ss_ancy_initialized
        | erewrite bind_get_ss_ancy_initialized by reflexivity
        | erewrite bind_get_ss_messages by reflexivity
        | rewrite bind_alloc
        | erewrite bind_load by (heap_norm; exact Hl)
        | erewrite bind_load by heap_lookup Hl
        | rewrite bind_store by (heap_norm; rewrite ?length_replace_nth, ?length_app; cbn [List.length]; lia)
        | erewrite bind_load by (heap_norm; rewrite nth_error_app1
             by (rewrite ?length_replace_nth, ?length_app; cbn [List.length]; lia);
             rewrite nth_error_replace_nth_same
             by (rewrite ?length_app; cbn [List.length]; lia); reflexivity)
        | match goal with |- context[bind (chat ?net ?self ?ut (VRef ?l')) ?f ?w] =>
            erewrite (bind_ok (chat net self ut (VRef l')) f w)
              by (apply chat_run; [exact Hs | heap_norm;
                  rewrite nth_error_replace_nth_same
                  by (rewrite ?length_app; cbn [List.length]; lia); reflexivity])
          end
        | unfold display_conversation at 1
        | unfold list_append at 1
        | progress cbn [negb]
        | match goal with |- context[bind (show_messages ?ms) ?f ?w] =>
            let H := fresh in
            destruct (show_messages_run ms w) as [? H];
            [cbn [w_heap]; assumption | rewrite (bind_ok _ _ _ _ _ H)]
          end ].

(** C7.  When [main] handles a submission (valid key, the clear button
    not pressed, the send button pressed, a text that is not blank after
    stripping) on a session whose stored conversation is the list object
    [l] holding [old], it appends the new user turn [u1] to that stored
    list and then passes the same list to [chat], which sends one request.
    When the request is sent, [l] already ends with [u1]; the payload's
    messages are the system turn, the last 10 items of the stored list
    (ending with [u1]), and a second, fresh user turn [u2] with the same
    text.  So the last two messages are both the new utterance, and when
    the stored list has at most 10 items the payload is the system turn,
    all of [old], then [u1] and [u2]. *)
Theorem main_submission_duplicates_turn : forall (net : request -> post_outcome) inp w k l old b,
  GROQ_API_KEY inp = Some k -> py_truthy (validate_api_key (Some k)) = true ->
  clear_clicked inp = false -> submit_button inp = true ->
  str_truthy (py_strip (user_input inp)) = true ->
  ss_messages w = Some (VRef l) -> ss_ancy_initialized w = Some b ->
  nth_error (w_heap w) l = Some (OList old) ->
  stored_turns (w_heap w) old ->
  exists rq u1 sys u2,
    w_sent (snd (main net inp w)) = w_sent w ++ [rq] /\
    nth_error (req_heap rq) l = Some (OList (old ++ [VRef u1])) /\
    request_messages rq = Some (sys :: last_n 10 (old ++ [VRef u1]) ++ [VRef u2]) /\
    request_obj rq (VRef u1) = Some (turn "user" (str_val (user_input inp))) /\
    request_obj rq (VRef u2) = Some (turn "user" (str_val (user_input inp))) /\
    (exists pre, request_messages rq = Some (pre ++ [VRef u1; VRef u2])) /\
    ((List.length old + 1 <= 10)%nat ->
       request_messages rq = Some (sys :: old ++ [VRef u1; VRef u2])).
Proof.
  intros net inp w k l old b Hk Hv Hc Hsub Hs Hm Hb Hl Hst.
  assert (Htxt : str_truthy (user_input inp) = true).
  { destruct (user_input inp); [discriminate Hs | reflexivity]. }
  assert (Hcond : negb (py_truthy (env_value (Some k))) || negb (py_truthy (validate_api_key (Some k))) = false).
  { rewrite Hv. apply validate_api_key_spec in Hv. destruct Hv as (s & Hs' & Hne & _).
    injection Hs' as <-. destruct k; [contradiction|reflexivity]. }
  destruct w as [h s t m a]; cbn [w_heap w_sent w_trace ss_messages ss_ancy_initialized] in *; subst m a.
  unfold main. rewrite !bind_emit. cbn [w_heap w_sent w_trace ss_messages ss_ancy_initialized].
  erewrite bind_initialize_noop by reflexivity.
  cbv zeta. rewrite Hk, Hcond. cbv iota.
  unfold main_session.
  rewrite Hc, Hsub, Htxt. cbv [andb].
  assert (Hlt : (l < List.length h)%nat) by (apply nth_error_Some; congruence).
  destruct b; repeat mstep Hl Hs;
  (unfold bind at 1;
   rewrite (chat_run net _ _ l (old ++ [VRef (List.length h)]) _ Hs)
     by (cbn [w_heap]; apply nth_error_replace_nth_same; rewrite length_app; cbn [List.length]; lia);
   cbv zeta; cbn [w_heap];
   match goal with |- context[net ?r] => set (rq := r) end;
   exists rq, (List.length h), (VRef (List.length h + 1 + 1)), (List.length h + 1 + 4)%nat;
   split;
   [destruct (outcome_result (net rq)) as [v|e]; [repeat mstep Hl Hs; reflexivity | reflexivity] | ]);
  (set (hh := replace_nth l (OList (old ++ [VRef (List.length h)]))
                (h ++ [turn "user" (str_val (user_input inp))])) in rq;
   assert (Hn : List.length hh = (List.length h + 1)%nat)
     by (unfold hh; rewrite length_replace_nth, length_app; reflexivity);
   destruct (request_messages_built {| api_key := k |} (user_input inp) hh
               (last_n 10 (old ++ [VRef (List.length h)]))) as (Hmsg & _ & Hu2);
   cbv zeta in Hmsg, Hu2; fold rq in Hmsg, Hu2; rewrite Hn in Hmsg, Hu2;
   rewrite Hmsg;
   split; [|split; [reflexivity|split; [|split; [exact Hu2|split]]]]).
  all: try (unfold rq; cbn [req_heap request_obj];
            rewrite nth_error_app1 by (rewrite Hn; lia); unfold hh).
  all: try (apply nth_error_replace_nth_same; rewrite length_app; cbn [List.length]; lia).
  all: try (rewrite nth_error_replace_nth_other by lia;
            rewrite nth_error_app2, Nat.sub_diag by lia; reflexivity).
  all: try (exists (VRef (List.length h + 1 + 1) :: skipn (List.length (old ++ [VRef (List.length h)]) - 10) old);
            unfold last_n; rewrite skipn_app;
            replace (List.length (old ++ [VRef (List.length h)]) - 10 - List.length old)%nat with 0%nat
              by (rewrite length_app; cbn [List.length]; lia);
            cbn [skipn app]; rewrite <- app_assoc; reflexivity).
  all: try (intros Hle; rewrite last_n_short by (rewrite length_app; cbn [List.length]; lia);
            rewrite <- app_assoc; reflexivity).
Qed.

Lemma main_submission_duplicates_turn_witness :
  let inp := mk_run_input (Some (lit "gsk_0123456789abcdef")) false true (lit "hi") in
  let w := mk_world [OList []] [] [] (Some (VRef 0)) (Some true) in
  exists rq u1 sys u2,
    w_sent (snd (main (fun _ => PostRaise (mk_exn ConnectionError [])) inp w)) = w_sent w ++ [rq] /\
    nth_error (req_heap rq) 0 = Some (OList ([] ++ [VRef u1])) /\
    request_messages rq = Some (sys :: last_n 10 ([] ++ [VRef u1]) ++ [VRef u2]) /\
    request_obj rq (VRef u1) = Some (turn "user" (str_val (user_input inp))) /\
    request_obj rq (VRef u2) = Some (turn "user" (str_val (user_input inp))) /\
    (exists pre, request_messages rq = Some (pre ++ [VRef u1; VRef u2])) /\
    ((List.length (@nil val) + 1 <= 10)%nat ->
       request_messages rq = Some (sys :: [] ++ [VRef u1; VRef u2])).
Proof.
  cbv zeta.
  apply (main_submission_duplicates_turn _ _ _ (lit "gsk_0123456789abcdef") 0 [] true);
    try reflexivity; try (vm_compute; reflexivity).
  constructor.
Defined.

(** * Further properties of the page *)

Section Frame.

Variable R : world -> world -> Prop.
Hypothesis HR : frame R.

Lemma pres_ret {A} (a : A) : preserves R (ret a).
Proof. intros w; apply (fr_refl R HR). Qed.

Lemma pres_raise {A} e : preserves R (@raise A e).
Proof. intros w; apply (fr_refl R HR). Qed.

Lemma pres_lift {A} (r : res A) : preserves R (lift r).
Proof. intros w; apply (fr_refl R HR). Qed.

Lemma pres_bind {A B} (m : M A) (f : A -> M B) :
  preserves R m -> (forall a, preserves R (f a)) -> preserves R (bind m f).
Proof.
  intros Hm Hf w. unfold bind. specialize (Hm w).
  destruct (m w) as [[a|e] w1]; cbn in *; [|exact Hm].
  exact ((fr_trans R HR) _ _ _ Hm (Hf a w1)).
Qed.

Lemma pres_alloc o : preserves R (alloc o).
Proof. intros w; apply (fr_heap R HR). Qed.

Lemma pres_load l : preserves R (load l).
Proof. intros w; unfold load; destruct (nth_error _ _); apply (fr_refl R HR). Qed.

Lemma pres_store l o : preserves R (store l o).
Proof. intros w; unfold store; destruct (Nat.ltb _ _); [apply (fr_heap R HR) | apply (fr_refl R HR)]. Qed.

Lemma pres_emit ev : ev <> EvWelcome -> preserves R (emit ev).
Proof. intros H w; now apply (fr_emit R HR). Qed.

Lemma pres_get_ss_messages : preserves R get_ss_messages.
Proof. intros w; unfold get_ss_messages; destruct (ss_messages w); apply (fr_refl R HR). Qed.

Lemma pres_set_ss_messages v : preserves R (set_ss_messages v).
Proof. intros w; apply (fr_set_messages R HR). Qed.

Local Ltac pres :=
  repeat match goal with
  | |- preserves R (bind _ _) => apply pres_bind; [|intros ?]
  | |- preserves R (ret _) => apply pres_ret
  | |- preserves R (raise _) => apply pres_raise
  | |- preserves R st_rerun => apply pres_raise
  | |- preserves R (lift _) => apply pres_lift
  | |- preserves R (alloc _) => apply pres_alloc
  | |- preserves R (load _) => apply pres_load
  | |- preserves R (store _ _) => apply pres_store
  | |- preserves R (emit _) => apply pres_emit; discriminate
  | |- preserves R get_ss_messages => apply pres_get_ss_messages
  | |- preserves R (set_ss_messages _) => apply pres_set_ss_messages
  | |- preserves R (match ?x with _ => _ end) => destruct x
  | |- preserves R (if ?b then _ else _) => destruct b
  end.

Lemma pres_val_getitem v k : preserves R (val_getitem v k).
Proof. unfold val_getitem. pres. Qed.

Lemma pres_list_append xs v : preserves R (list_append xs v).
Proof. unfold list_append. pres. Qed.

Lemma pres_show_messages ms : preserves R (show_messages ms).
Proof.
  induction ms as [|m ms IH]; cbn [show_messages]; pres; auto using pres_val_getitem.
Qed.

Lemma pres_display_conversation : preserves R display_conversation.
Proof. unfold display_conversation. pres; apply pres_show_messages. Qed.

Lemma pres_slice_last10 v : preserves R (slice_last10 v).
Proof. unfold slice_last10. pres. Qed.

Lemma pres_list_extend l ys : preserves R (list_extend l ys).
Proof. unfold list_extend. pres. Qed.

Lemma pres_chat net self ut hist :
  (forall h p, preserves R (requests_post net h p)) ->
  preserves R (chat net self ut hist).
Proof.
  intros Hp. unfold chat, make_api_request, slice_last10, list_extend, list_append.
  pres; auto.
Qed.

End Frame.

Lemma post_same_flag net h p : preserves same_flag (requests_post net h p).
Proof. intros w. reflexivity. Qed.

Lemma post_trace_no_welcome net h p : preserves trace_no_welcome (requests_post net h p).
Proof. intros w. exists []. split; [symmetry; apply app_nil_r | intros []]. Qed.

Ltac pres_tac HR :=
  repeat match goal with
  | |- preserves ?R (bind _ _) => apply (pres_bind R HR); [|intros ?]
  | |- preserves ?R (ret _) => apply (pres_ret R HR)
  | |- preserves ?R (raise _) => apply (pres_raise R HR)
  | |- preserves ?R st_rerun => apply (pres_raise R HR)
  | |- preserves ?R st_stop => apply (pres_raise R HR)
  | |- preserves ?R (alloc _) => apply (pres_alloc R HR)
  | |- preserves ?R (emit _) => apply (pres_emit R HR); discriminate
  | |- preserves ?R get_ss_messages => apply (pres_get_ss_messages R HR)
  | |- preserves ?R (set_ss_messages _) => apply (pres_set_ss_messages R HR)
  | |- preserves ?R (list_append _ _) => apply (pres_list_append R HR)
  | |- preserves ?R (list_extend _ _) => apply (pres_list_extend R HR)
  | |- preserves ?R (slice_last10 _) => apply (pres_slice_last10 R HR)
  | |- preserves ?R (lift _) => apply (pres_lift R HR)
  | |- preserves ?R (load _) => apply (pres_load R HR)
  | |- preserves ?R (match ?x with _ => _ end) => destruct x
  | |- preserves ?R display_conversation => apply (pres_display_conversation R HR)
  | |- preserves ?R (if ?b then _ else _) => destruct b
  | |- preserves ?R (chat _ _ _ _) =>
      apply (pres_chat R HR); intros ? ?;
      first [apply post_same_flag | apply post_trace_no_welcome]
  end.

Lemma frame_same_sent : frame same_sent.
Proof.
  split; unfold same_sent; try reflexivity.
  - intros w1 w2 w3 H1 H2. congruence.
Qed.

Lemma frame_same_flag : frame same_flag.
Proof.
  split; unfold same_flag; try reflexivity.
  - intros w1 w2 w3 H1 H2. congruence.
Qed.

Lemma frame_trace_no_welcome : frame trace_no_welcome.
Proof.
  split; unfold trace_no_welcome.
  - intros w. exists []. split; [symmetry; apply app_nil_r | intros []].
  - intros w1 w2 w3 (e1 & H1 & N1) (e2 & H2 & N2). exists (e1 ++ e2).
    split; [rewrite H2, H1; symmetry; apply app_assoc|].
    intros Hin. apply in_app_or in Hin. tauto.
  - intros h w. exists []. split; [symmetry; apply app_nil_r | intros []].
  - intros ev w Hev. exists [ev]. split; [reflexivity|]. intros [H|[]]. congruence.
  - intros v w. exists []. split; [symmetry; apply app_nil_r | intros []].
Qed.

(** ** Request settings *)

(** X1. A non-blank input makes [chat] send exactly one request, to the Groq URL with a 30 second timeout, a bearer authorization header and a JSON payload with the model, the messages, 1000 max tokens, temperature 0.8 and no streaming. *)
Lemma chat_request_settings net self ut l xs w :
  str_truthy (py_strip ut) = true ->
  nth_error (w_heap w) l = Some (OList xs) ->
  exists rq,
    w_sent (snd (chat net self ut (VRef l) w)) = w_sent w ++ [rq] /\
    req_url rq = GROQ_API_URL /\ req_timeout rq = 30 /\
    request_obj rq (VRef (req_headers rq)) =
      Some (ODict [(lit "Authorization", str_val (lit "Bearer " ++ api_key self));
                   (lit "Content-Type", str_val (lit "application/json"))]) /\
    exists msgs,
      request_obj rq (VRef (req_json rq)) =
        Some (ODict [(lit "model", str_val MODEL_NAME);
                     (lit "messages", VRef msgs);
                     (lit "max_tokens", VPrim (JInt 1000));
                     (lit "temperature", VPrim (JFloat (lit "0.8")));
                     (lit "stream", VPrim (JBool false))]).
Proof.
  intros Hs Hl. rewrite (chat_run net self ut l xs w Hs Hl). cbv zeta.
  eexists. split; [reflexivity|]. cbn [req_url req_timeout req_headers req_json req_heap request_obj].
  split; [reflexivity|]. split; [reflexivity|].
  rewrite !nth_error_app2 by lia. rewrite Nat.sub_diag.
  replace (List.length (w_heap w) + 5 - List.length (w_heap w))%nat with 5%nat by lia.
  split; [reflexivity|]. eexists. reflexivity.
Qed.

Lemma chat_request_settings_witness :
  exists rq,
    w_sent (snd (chat (fun _ => PostRaise (mk_exn Timeout [])) (mk_ancy (lit "gsk_0123456789a"))
                      (lit "Lisbon?") (VRef 0) (mk_world [OList []] [] [] None None)))
      = [] ++ [rq] /\
    req_url rq = GROQ_API_URL /\ req_timeout rq = 30 /\
    request_obj rq (VRef (req_headers rq)) =
      Some (ODict [(lit "Authorization", str_val (lit "Bearer " ++ lit "gsk_0123456789a"));
                   (lit "Content-Type", str_val (lit "application/json"))]) /\
    exists msgs,
      request_obj rq (VRef (req_json rq)) =
        Some (ODict [(lit "model", str_val MODEL_NAME);
                     (lit "messages", VRef msgs);
                     (lit "max_tokens", VPrim (JInt 1000));
                     (lit "temperature", VPrim (JFloat (lit "0.8")));
                     (lit "stream", VPrim (JBool false))]).
Proof.
  apply (chat_request_settings _ (mk_ancy (lit "gsk_0123456789a")) (lit "Lisbon?") 0 []
           (mk_world [OList []] [] [] None None)); reflexivity.
Defined.

(** ** Failures of the call itself *)

(** X2. When the POST raises a connection, proxy, SSL or connect-timeout error, [chat] returns the connection message; when it raises a read or generic timeout, it returns the timeout message. *)
Lemma chat_connection_timeout net self ut l xs w e :
  (forall rq, net rq = PostRaise e) ->
  str_truthy (py_strip ut) = true ->
  nth_error (w_heap w) l = Some (OList xs) ->
  (In (exn_cls e) [ConnectionError; ProxyError; SSLError; ConnectTimeout] ->
     fst (chat net self ut (VRef l) w) = Ok (JStr MSG_CONNECTION)) /\
  (In (exn_cls e) [Timeout; ReadTimeout] ->
     fst (chat net self ut (VRef l) w) = Ok (JStr MSG_TIMEOUT)).
Proof.
  intros Hn Hs Hl. rewrite (chat_result_const net self ut l xs w _ Hn Hs Hl).
  unfold outcome_result, try_block, handle, isinstance.
  destruct e as [c m]; cbn [exn_cls]. split; intros Hin;
    repeat (destruct Hin as [<-|Hin]; [reflexivity|]); destruct Hin.
Qed.

Lemma chat_connection_timeout_witness :
  fst (chat (fun _ => PostRaise (mk_exn ConnectTimeout [])) (mk_ancy (lit "k")) (lit "hi")
            (VRef 0) (mk_world [OList []] [] [] None None)) = Ok (JStr MSG_CONNECTION) /\
  fst (chat (fun _ => PostRaise (mk_exn ReadTimeout [])) (mk_ancy (lit "k")) (lit "hi")
            (VRef 0) (mk_world [OList []] [] [] None None)) = Ok (JStr MSG_TIMEOUT).
Proof.
  split.
  - apply (chat_connection_timeout _ _ _ 0 [] _ (mk_exn ConnectTimeout [])); try reflexivity.
    cbn; tauto.
  - apply (chat_connection_timeout _ _ _ 0 [] _ (mk_exn ReadTimeout [])); try reflexivity.
    cbn; tauto.
Defined.

(** X3. A response whose status is not an HTTP error and whose body is not valid JSON makes [chat] return the invalid-format message. *)
Lemma chat_invalid_json net self ut l xs w r msg :
  (forall rq, net rq = PostResp r) ->
  str_truthy (py_strip ut) = true ->
  nth_error (w_heap w) l = Some (OList xs) ->
  (status_code r < 400 \/ 600 <= status_code r) ->
  resp_body r = BodyInvalid msg ->
  fst (chat net self ut (VRef l) w) = Ok (JStr MSG_INVALID_FORMAT).
Proof.
  intros Hn Hs Hl Hst Hb. rewrite (chat_result_const net self ut l xs w _ Hn Hs Hl).
  unfold outcome_result, try_block.
  replace (raise_for_status r) with (@None exn).
  - unfold response_json. rewrite Hb. reflexivity.
  - unfold raise_for_status.
    destruct Hst as [Hst|Hst].
    + replace (400 <=? status_code r) with false by (symmetry; apply Z.leb_gt; lia).
      replace (500 <=? status_code r) with false by (symmetry; apply Z.leb_gt; lia).
      reflexivity.
    + replace (status_code r <? 500) with false by (symmetry; apply Z.ltb_ge; lia).
      replace (status_code r <? 600) with false by (symmetry; apply Z.ltb_ge; lia).
      rewrite !andb_false_r. reflexivity.
Qed.

Lemma chat_invalid_json_witness :
  let r := mk_response 200 (lit "OK") GROQ_API_URL (BodyInvalid (lit "Expecting value")) in
  fst (chat (fun _ => PostResp r) (mk_ancy (lit "k")) (lit "hi")
            (VRef 0) (mk_world [OList []] [] [] None None)) = Ok (JStr MSG_INVALID_FORMAT).
Proof.
  cbv zeta.
  apply (chat_invalid_json _ _ _ 0 [] _
           (mk_response 200 (lit "OK") GROQ_API_URL (BodyInvalid (lit "Expecting value")))
           (lit "Expecting value"));
    try reflexivity. left. cbn. lia.
Defined.

(** X4. An exception raised by the POST that is not a subclass of [Exception] is not caught by [chat]: it propagates unchanged. *)
Lemma chat_non_exception_propagates net self ut l xs w e :
  (forall rq, net rq = PostRaise e) ->
  str_truthy (py_strip ut) = true ->
  nth_error (w_heap w) l = Some (OList xs) ->
  isinstance e CException = false ->
  fst (chat net self ut (VRef l) w) = Raise e.
Proof.
  intros Hn Hs Hl He. rewrite (chat_result_const net self ut l xs w _ Hn Hs Hl).
  unfold outcome_result, try_block, handle. revert He. unfold isinstance.
  destruct e as [[] m]; cbn; congruence.
Qed.

Lemma chat_non_exception_propagates_witness :
  fst (chat (fun _ => PostRaise (mk_exn StopException [])) (mk_ancy (lit "k")) (lit "hi")
            (VRef 0) (mk_world [OList []] [] [] None None)) = Raise (mk_exn StopException []).
Proof.
  apply (chat_non_exception_propagates _ _ _ 0 []); reflexivity.
Defined.

(** X5. If the POST itself raises [HTTPError], the handler reads [response] before it was bound, so [chat] raises [UnboundLocalError]. *)
Lemma chat_post_http_error_unbound net self ut l xs w msg :
  (forall rq, net rq = PostRaise (mk_exn HTTPError msg)) ->
  str_truthy (py_strip ut) = true ->
  nth_error (w_heap w) l = Some (OList xs) ->
  exists m, fst (chat net self ut (VRef l) w) = Raise (mk_exn UnboundLocalError m).
Proof.
  intros Hn Hs Hl. rewrite (chat_result_const net self ut l xs w _ Hn Hs Hl).
  eexists. reflexivity.
Qed.

Lemma chat_post_http_error_unbound_witness :
  exists m, fst (chat (fun _ => PostRaise (mk_exn HTTPError [])) (mk_ancy (lit "k")) (lit "hi")
            (VRef 0) (mk_world [OList []] [] [] None None)) = Raise (mk_exn UnboundLocalError m).
Proof.
  apply (chat_post_http_error_unbound _ _ _ 0 [] _ []); reflexivity.
Defined.

(** ** Whole runs of the page *)

Lemma initialize_session_state_spec w :
  initialize_session_state w =
    (Ok tt, mk_world (match ss_messages w with
                      | Some _ => w_heap w
                      | None => w_heap w ++ [OList []]
                      end)
                     (w_sent w) (w_trace w)
                     (Some (match ss_messages w with
                            | Some m => m
                            | None => VRef (List.length (w_heap w))
                            end))
                     (Some (match ss_ancy_initialized w with
                            | Some b => b
                            | None => false
                            end))).
Proof.
  destruct w as [h s t [m|] [a|]]; reflexivity.
Qed.

Lemma sent_set_flag b : preserves same_sent (set_ss_ancy_initialized b).
Proof. intros w. reflexivity. Qed.

Lemma sent_emit ev : preserves same_sent (emit ev).
Proof. intros w. reflexivity. Qed.

Lemma sent_get_flag : preserves same_sent get_ss_ancy_initialized.
Proof. intros w. unfold get_ss_ancy_initialized. destruct (ss_ancy_initialized w); reflexivity. Qed.

Lemma sent_initialize : preserves same_sent initialize_session_state.
Proof. intros w. rewrite initialize_session_state_spec. reflexivity. Qed.

Ltac sent_tac :=
  repeat first
    [ apply sent_set_flag | apply sent_emit | apply sent_get_flag | apply sent_initialize
    | match goal with
      | |- preserves same_sent (bind _ _) => apply (pres_bind same_sent frame_same_sent); [|intros ?]
      | |- preserves same_sent (chat _ _ _ _) => fail 2
      | |- preserves same_sent _ => progress (pres_tac frame_same_sent)
      end ].

Lemma one_refl w : sent_at_most_one w w.
Proof. exists []. split; [symmetry; apply app_nil_r | cbn; lia]. Qed.

Lemma one_of_same {A} (m : M A) : preserves same_sent m -> preserves sent_at_most_one m.
Proof. intros H w. exists []. rewrite (H w). split; [symmetry; apply app_nil_r | cbn; lia]. Qed.

Lemma one_keep_then {A B} (m : M A) (f : A -> M B) :
  preserves same_sent m -> (forall a, preserves sent_at_most_one (f a)) ->
  preserves sent_at_most_one (bind m f).
Proof.
  intros Hm Hf w. unfold bind. specialize (Hm w).
  destruct (m w) as [[a|e] w1]; cbn in *.
  - destruct (Hf a w1) as (rs & E & L). exists rs. rewrite E, Hm. auto.
  - exists []. rewrite Hm. split; [symmetry; apply app_nil_r | cbn; lia].
Qed.

Lemma one_then_keep {A B} (m : M A) (f : A -> M B) :
  preserves sent_at_most_one m -> (forall a, preserves same_sent (f a)) ->
  preserves sent_at_most_one (bind m f).
Proof.
  intros Hm Hf w. unfold bind. specialize (Hm w).
  destruct (m w) as [[a|e] w1]; cbn in *; [|exact Hm].
  destruct Hm as (rs & E & L). exists rs. rewrite (Hf a w1), E. auto.
Qed.

Lemma one_post net h p : preserves sent_at_most_one (requests_post net h p).
Proof. intros w. exists [mk_request GROQ_API_URL h p 30 (w_heap w)]. split; [reflexivity | cbn; lia]. Qed.

Ltac one_tac0 :=
  repeat match goal with
  | |- preserves sent_at_most_one (requests_post _ _ _) => apply one_post
  | |- preserves sent_at_most_one (bind _ _) =>
      first [ apply one_keep_then; [solve [sent_tac] | intros ?]
            | apply one_then_keep; [| intros ?; solve [sent_tac]] ]
  | |- preserves sent_at_most_one (if ?b then _ else _) => destruct b
  | |- preserves sent_at_most_one (match ?x with _ => _ end) => destruct x
  | |- preserves sent_at_most_one _ => apply one_of_same; solve [sent_tac]
  end.

Lemma chat_at_most_one net self ut hist : preserves sent_at_most_one (chat net self ut hist).
Proof. unfold chat, make_api_request. one_tac0. Qed.

Ltac one_tac :=
  repeat match goal with
  | |- preserves sent_at_most_one (requests_post _ _ _) => apply one_post
  | |- preserves sent_at_most_one (chat _ _ _ _) => apply chat_at_most_one
  | |- preserves sent_at_most_one (bind _ _) =>
      first [ apply one_keep_then; [solve [sent_tac] | intros ?]
            | apply one_then_keep; [| intros ?; solve [sent_tac]] ]
  | |- preserves sent_at_most_one (if ?b then _ else _) => destruct b
  | |- preserves sent_at_most_one (match ?x with _ => _ end) => destruct x
  | |- preserves sent_at_most_one _ => apply one_of_same; solve [sent_tac]
  end.



Lemma key_accepted k :
  py_truthy (validate_api_key (Some k)) = true ->
  negb (py_truthy (env_value (Some k))) || negb (py_truthy (validate_api_key (Some k))) = false.
Proof.
  intros Hv. rewrite Hv. apply validate_api_key_spec in Hv. destruct Hv as (s & Hs' & Hne & _).
  injection Hs' as <-. destruct k; [contradiction|reflexivity].
Qed.

(** X7. One run of [main] sends at most one HTTP request. *)
Theorem main_at_most_one_request net inp w :
  exists rs, w_sent (snd (main net inp w)) = w_sent w ++ rs /\ (List.length rs <= 1)%nat.
Proof.
  enough (H : preserves sent_at_most_one (main net inp)) by exact (H w).
  unfold main, main_session. cbv zeta. one_tac.
Qed.

(** X8. A run of [main] without a submitted non-empty input sends no HTTP request. *)
Theorem main_no_submission_no_request net inp w :
  submit_button inp && str_truthy (user_input inp) = false ->
  w_sent (snd (main net inp w)) = w_sent w.
Proof.
  intros Hs.
  enough (H : preserves same_sent (main net inp)) by exact (H w).
  unfold main, main_session. cbv zeta. rewrite Hs. sent_tac.
Qed.

Lemma main_no_submission_no_request_witness :
  w_sent (snd (main (fun _ => PostRaise (mk_exn Timeout []))
                    (mk_run_input (Some (lit "gsk_0123456789a")) false true [])
                    (mk_world [] [] [] None None))) = [].
Proof. apply main_no_submission_no_request. reflexivity. Defined.

(** X9. A run of [main] with a valid API key leaves the [ancy_initialized] flag set to true. *)
Theorem main_sets_initialized net inp w k :
  GROQ_API_KEY inp = Some k -> py_truthy (validate_api_key (Some k)) = true ->
  ss_ancy_initialized (snd (main net inp w)) = Some true.
Proof.
  intros Hk Hv. pose proof (key_accepted k Hv) as Hcond.
  unfold main. rewrite !bind_emit.
  rewrite (bind_ok _ _ _ _ _ (initialize_session_state_spec _)). cbv zeta.
  rewrite Hk, Hcond. cbv iota. unfold main_session. rewrite bind_emit.
  erewrite bind_get_ss_ancy_initialized by reflexivity.
  destruct (match ss_ancy_initialized _ with Some b => b | None => false end); cbn [negb].
  - rewrite bind_ret.
    match goal with |- ss_ancy_initialized (snd (?m ?W)) = _ =>
      assert (Hp : preserves same_flag m) by (pres_tac frame_same_flag);
      rewrite (Hp W); reflexivity end.
  - rewrite bind_assoc, bind_emit, bind_set_ss_ancy_initialized.
    match goal with |- ss_ancy_initialized (snd (?m ?W)) = _ =>
      assert (Hp : preserves same_flag m) by (pres_tac frame_same_flag);
      rewrite (Hp W); reflexivity end.
Qed.

Lemma main_sets_initialized_witness :
  ss_ancy_initialized (snd (main (fun _ => PostRaise (mk_exn Timeout []))
                    (mk_run_input (Some (lit "gsk_0123456789a")) false true (lit "hi"))
                    (mk_world [] [] [] None None))) = Some true.
Proof. apply (main_sets_initialized _ _ _ (lit "gsk_0123456789a")); reflexivity. Defined.

(** X10. With a valid API key, [main] shows the welcome message exactly when the [ancy_initialized] flag was not already true. *)
Theorem main_welcome_first_run net inp w k :
  GROQ_API_KEY inp = Some k -> py_truthy (validate_api_key (Some k)) = true ->
  exists evs, w_trace (snd (main net inp w)) = w_trace w ++ evs /\
    (In EvWelcome evs <-> ss_ancy_initialized w <> Some true).
Proof.
  intros Hk Hv. pose proof (key_accepted k Hv) as Hcond.
  unfold main. rewrite !bind_emit.
  rewrite (bind_ok _ _ _ _ _ (initialize_session_state_spec _)). cbv zeta.
  rewrite Hk, Hcond. cbv iota. unfold main_session. rewrite bind_emit.
  erewrite bind_get_ss_ancy_initialized by reflexivity.
  cbn [w_heap w_sent w_trace ss_messages ss_ancy_initialized].
  destruct (ss_ancy_initialized w) as [[|]|] eqn:Ef; cbn [negb].
  - rewrite bind_ret.
    match goal with |- exists evs, w_trace (snd (?m ?W)) = _ /\ _ =>
      assert (Hp : preserves trace_no_welcome m) by (pres_tac frame_trace_no_welcome);
      destruct (Hp W) as (evs & Ht & Hn) end.
    rewrite Ht. cbn [w_trace]. eexists. split; [rewrite <- !app_assoc; reflexivity|].
    split; [|congruence]. intros Hin. exfalso. cbn in Hin.
    intuition discriminate.
  - rewrite bind_assoc, bind_emit, bind_set_ss_ancy_initialized.
    match goal with |- exists evs, w_trace (snd (?m ?W)) = _ /\ _ =>
      assert (Hp : preserves trace_no_welcome m) by (pres_tac frame_trace_no_welcome);
      destruct (Hp W) as (evs & Ht & Hn) end.
    rewrite Ht. cbn [w_trace]. eexists. split; [rewrite <- !app_assoc; reflexivity|].
    split; [congruence|]. intros _. cbn. tauto.
  - rewrite bind_assoc, bind_emit, bind_set_ss_ancy_initialized.
    match goal with |- exists evs, w_trace (snd (?m ?W)) = _ /\ _ =>
      assert (Hp : preserves trace_no_welcome m) by (pres_tac frame_trace_no_welcome);
      destruct (Hp W) as (evs & Ht & Hn) end.
    rewrite Ht. cbn [w_trace]. eexists. split; [rewrite <- !app_assoc; reflexivity|].
    split; [congruence|]. intros _. cbn. tauto.
Qed.

Lemma main_welcome_first_run_witness :
  exists evs, w_trace (snd (main (fun _ => PostRaise (mk_exn Timeout []))
                    (mk_run_input (Some (lit "gsk_0123456789a")) false false [])
                    (mk_world [] [] [] None None))) = [] ++ evs /\
    (In EvWelcome evs <-> ss_ancy_initialized (mk_world [] [] [] None None) <> Some true).
Proof.
  apply (main_welcome_first_run _ _ (mk_world [] [] [] None None) (lit "gsk_0123456789a"));
    reflexivity.
Defined.

(** X11. With a valid key, pressing the clear button makes [main] store a fresh empty message list, send no request, keep the old heap objects, show no message and rerun the page. *)
Theorem main_clear_conversation net inp w k :
  GROQ_API_KEY inp = Some k -> py_truthy (validate_api_key (Some k)) = true ->
  clear_clicked inp = true ->
  let '(r, w') := main net inp w in
  r = Raise (mk_exn RerunException []) /\
  w_sent w' = w_sent w /\
  (exists l, ss_messages w' = Some (VRef l) /\ nth_error (w_heap w') l = Some (OList [])) /\
  (forall j o, nth_error (w_heap w) j = Some o -> nth_error (w_heap w') j = Some o) /\
  exists evs, w_trace w' = w_trace w ++ evs /\ forall u c, ~ In (EvShowMessage u c) evs.
Proof.
  intros Hk Hv Hc. pose proof (key_accepted k Hv) as Hcond.
  unfold main. rewrite !bind_emit.
  rewrite (bind_ok _ _ _ _ _ (initialize_session_state_spec _)). cbv zeta.
  rewrite Hk, Hcond. cbv iota. unfold main_session. rewrite bind_emit.
  erewrite bind_get_ss_ancy_initialized by reflexivity.
  cbn [w_heap w_sent w_trace ss_messages ss_ancy_initialized].
  destruct w as [h s t m a]; cbn [w_heap w_sent w_trace ss_messages ss_ancy_initialized].
  rewrite Hc.
  set (h1 := match m with Some _ => h | None => h ++ [OList []] end).
  assert (Hh1 : forall j o, nth_error h j = Some o -> nth_error h1 j = Some o).
  { intros j o Hj. unfold h1. destruct m; [exact Hj|].
    rewrite nth_error_app1; [exact Hj | apply nth_error_Some; congruence]. }
  destruct (match a with Some b => b | None => false end); cbn [negb];
    cbv [bind ret emit alloc set_heap set_ss_messages set_ss_ancy_initialized st_rerun raise];
    cbn [w_heap w_sent w_trace ss_messages ss_ancy_initialized].
  all: split; [reflexivity|]; split; [reflexivity|].
  all: split; [exists (List.length h1); split; [reflexivity|];
               rewrite nth_error_app2, Nat.sub_diag by lia; reflexivity|].
  all: split; [intros j o Hj; rewrite nth_error_app1;
               [exact (Hh1 j o Hj) | apply nth_error_Some; rewrite (Hh1 j o Hj); discriminate]|].
  all: eexists; split; [rewrite <- !app_assoc; reflexivity|].
  all: intros u c Hin; cbn in Hin; intuition discriminate.
Qed.

Lemma main_clear_conversation_witness :
  let '(r, w') := main (fun _ => PostRaise (mk_exn Timeout []))
                    (mk_run_input (Some (lit "gsk_0123456789a")) true false [])
                    (mk_world [OList []] [] [] (Some (VRef 0)) (Some true)) in
  r = Raise (mk_exn RerunException []) /\
  w_sent w' = [] /\
  (exists l, ss_messages w' = Some (VRef l) /\ nth_error (w_heap w') l = Some (OList [])) /\
  (forall j o, nth_error [OList []] j = Some o -> nth_error (w_heap w') j = Some o) /\
  exists evs, w_trace w' = [] ++ evs /\ forall u c, ~ In (EvShowMessage u c) evs.
Proof.
  apply (main_clear_conversation _ _ (mk_world [OList []] [] [] (Some (VRef 0)) (Some true))
           (lit "gsk_0123456789a")); reflexivity.
Defined.

Ltac mstep_blank Hl Hb :=
  first [ mstep Hl Hb
        | match goal with |- context[bind (chat ?net ?self ?ut ?hv) ?f ?w] =>
            rewrite (bind_ok (chat net self ut hv) f w _ _ (chat_blank net self ut hv w Hb))
          end ].

(** X12. Submitting a non-empty input that is blank after stripping sends no request, appends the user turn and an assistant turn holding the empty-input message, and reruns the page. *)
Theorem main_blank_submission net inp w k l old b :
  GROQ_API_KEY inp = Some k -> py_truthy (validate_api_key (Some k)) = true ->
  clear_clicked inp = false -> submit_button inp = true ->
  user_input inp <> [] -> py_strip (user_input inp) = [] ->
  ss_messages w = Some (VRef l) -> ss_ancy_initialized w = Some b ->
  nth_error (w_heap w) l = Some (OList old) ->
  stored_turns (w_heap w) old ->
  let '(r, w') := main net inp w in
  r = Raise (mk_exn RerunException []) /\
  w_sent w' = w_sent w /\
  exists u a,
    nth_error (w_heap w') l = Some (OList (old ++ [VRef u; VRef a])) /\
    nth_error (w_heap w') u = Some (turn "user" (str_val (user_input inp))) /\
    nth_error (w_heap w') a = Some (turn "assistant" (str_val MSG_EMPTY_INPUT)).
Proof.
  intros Hk Hv Hc Hsub Hne Hb Hm Hf Hl Hst.
  assert (Htxt : str_truthy (user_input inp) = true).
  { destruct (user_input inp); [contradiction | reflexivity]. }
  pose proof (key_accepted k Hv) as Hcond.
  destruct w as [h s t m a]; cbn [w_heap w_sent w_trace ss_messages ss_ancy_initialized] in *; subst m a.
  unfold main. rewrite !bind_emit. cbn [w_heap w_sent w_trace ss_messages ss_ancy_initialized].
  erewrite bind_initialize_noop by reflexivity.
  cbv zeta. rewrite Hk, Hcond. cbv iota.
  unfold main_session.
  rewrite Hc, Hsub, Htxt. cbv [andb].
  assert (Hlt : (l < List.length h)%nat) by (apply nth_error_Some; congruence).
  destruct b; repeat mstep_blank Hl Hb;
    unfold st_rerun, raise, bind at 1; cbn [w_heap w_sent];
    (split; [reflexivity|]; split; [reflexivity|]);
    exists (List.length h), (List.length h + 1)%nat;
    unfold set_heap; cbn [w_heap]; rewrite ?length_replace_nth, ?length_app; cbn [List.length].
  all: split; [apply nth_error_replace_nth_same;
               rewrite length_app, length_replace_nth, length_app; cbn [List.length]; lia|].
  all: rewrite !nth_error_replace_nth_other by lia.
  all: split; [rewrite nth_error_app1 by (rewrite length_replace_nth, length_app; cbn [List.length]; lia);
               rewrite nth_error_replace_nth_other by lia;
               rewrite nth_error_app2, Nat.sub_diag by lia; reflexivity|].
  all: rewrite nth_error_app2 by (rewrite length_replace_nth, length_app; cbn [List.length]; lia).
  all: rewrite length_replace_nth, length_app; cbn [List.length].
  all: rewrite Nat.sub_diag; reflexivity.
Qed.

Lemma main_blank_submission_witness :
  let '(r, w') := main (fun _ => PostRaise (mk_exn Timeout []))
                    (mk_run_input (Some (lit "gsk_0123456789a")) false true (lit "   "))
                    (mk_world [OList []] [] [] (Some (VRef 0)) (Some true)) in
  r = Raise (mk_exn RerunException []) /\
  w_sent w' = [] /\
  exists u a,
    nth_error (w_heap w') 0 = Some (OList ([] ++ [VRef u; VRef a])) /\
    nth_error (w_heap w') u = Some (turn "user" (str_val (lit "   "))) /\
    nth_error (w_heap w') a = Some (turn "assistant" (str_val MSG_EMPTY_INPUT)).
Proof.
  apply (main_blank_submission _ (mk_run_input (Some (lit "gsk_0123456789a")) false true (lit "   "))
           (mk_world [OList []] [] [] (Some (VRef 0)) (Some true)) (lit "gsk_0123456789a") 0 [] true);
    try reflexivity; try discriminate.
  constructor.
Defined.

(** X13. Submitting a non-blank input sends one request and appends the user turn; if [chat] returns a value it appends it as the assistant turn and reruns, and if [chat] raises, the exception escapes with only the user turn stored. *)
Theorem main_submission_stores_reply net inp w k l old b :
  GROQ_API_KEY inp = Some k -> py_truthy (validate_api_key (Some k)) = true ->
  clear_clicked inp = false -> submit_button inp = true ->
  str_truthy (py_strip (user_input inp)) = true ->
  ss_messages w = Some (VRef l) -> ss_ancy_initialized w = Some b ->
  nth_error (w_heap w) l = Some (OList old) ->
  stored_turns (w_heap w) old ->
  exists rq u a,
    let '(r, w') := main net inp w in
    w_sent w' = w_sent w ++ [rq] /\
    nth_error (w_heap w') u = Some (turn "user" (str_val (user_input inp))) /\
    match outcome_result (net rq) with
    | Ok v => r = Raise (mk_exn RerunException []) /\
              nth_error (w_heap w') l = Some (OList (old ++ [VRef u; VRef a])) /\
              nth_error (w_heap w') a = Some (turn "assistant" (VPrim v))
    | Raise e => r = Raise e /\
                 nth_error (w_heap w') l = Some (OList (old ++ [VRef u]))
    end.
Proof.
  intros Hk Hv Hc Hsub Hs Hm Hb Hl Hst.
  assert (Htxt : str_truthy (user_input inp) = true).
  { destruct (user_input inp); [discriminate Hs | reflexivity]. }
  pose proof (key_accepted k Hv) as Hcond.
  destruct w as [h s t m a]; cbn [w_heap w_sent w_trace ss_messages ss_ancy_initialized] in *; subst m a.
  unfold main. rewrite !bind_emit. cbn [w_heap w_sent w_trace ss_messages ss_ancy_initialized].
  erewrite bind_initialize_noop by reflexivity.
  cbv zeta. rewrite Hk, Hcond. cbv iota.
  unfold main_session.
  rewrite Hc, Hsub, Htxt. cbv [andb].
  assert (Hlt : (l < List.length h)%nat) by (apply nth_error_Some; congruence).
  destruct b; repeat mstep Hl Hs;
  (unfold bind at 1;
   rewrite (chat_run net _ _ l (old ++ [VRef (List.length h)]) _ Hs)
     by (cbn [w_heap]; apply nth_error_replace_nth_same; rewrite length_app; cbn [List.length]; lia);
   cbv zeta; cbn [w_heap];
   match goal with |- context[net ?r] => set (rq := r) end;
   exists rq, (List.length h), (List.length h + 1 + 6)%nat;
   destruct (outcome_result (net rq)) as [v|e];
   [repeat mstep Hl Hs; unfold st_rerun, raise, bind at 1 | ];
   unfold set_heap; cbn [w_heap w_sent];
   rewrite ?length_replace_nth, ?length_app; cbn [List.length];
   (split; [reflexivity|])).
  all: repeat match goal with |- context[List.length (request_objects ?a ?b ?c ?d)] =>
         replace (List.length (request_objects a b c d)) with 6%nat by reflexivity end.
  all: assert (Hu : forall tl, nth_error (replace_nth l (OList (old ++ [VRef (List.length h)]))
                           (h ++ [turn "user" (str_val (user_input inp))]) ++ tl) (List.length h)
                     = Some (turn "user" (str_val (user_input inp))))
         by (intros tl; rewrite nth_error_app1
               by (rewrite length_replace_nth, length_app; cbn [List.length]; lia);
             rewrite nth_error_replace_nth_other by lia;
             rewrite nth_error_app2, Nat.sub_diag by lia; reflexivity).
  - rewrite nth_error_replace_nth_other by lia. split; [apply Hu|].
    split; [reflexivity|]. split.
    + apply nth_error_replace_nth_same.
      rewrite !length_app, length_replace_nth, length_app. cbn [List.length]. lia.
    + rewrite nth_error_replace_nth_other by lia.
      rewrite nth_error_app2 by (rewrite length_replace_nth, length_app; cbn [List.length]; lia).
      rewrite length_replace_nth, length_app. cbn [List.length].
      replace (List.length h + 1 + 6 - (List.length h + 1))%nat with 6%nat by lia.
      reflexivity.
  - split; [apply Hu|]. split; [reflexivity|].
    rewrite nth_error_app1 by (rewrite length_replace_nth, length_app; cbn [List.length]; lia).
    apply nth_error_replace_nth_same. rewrite length_app. cbn [List.length]. lia.
  - rewrite nth_error_replace_nth_other by lia. split; [apply Hu|].
    split; [reflexivity|]. split.
    + apply nth_error_replace_nth_same.
      rewrite !length_app, length_replace_nth, length_app. cbn [List.length]. lia.
    + rewrite nth_error_replace_nth_other by lia.
      rewrite nth_error_app2 by (rewrite length_replace_nth, length_app; cbn [List.length]; lia).
      rewrite length_replace_nth, length_app. cbn [List.length].
      replace (List.length h + 1 + 6 - (List.length h + 1))%nat with 6%nat by lia.
      reflexivity.
  - split; [apply Hu|]. split; [reflexivity|].
    rewrite nth_error_app1 by (rewrite length_replace_nth, length_app; cbn [List.length]; lia).
    apply nth_error_replace_nth_same. rewrite length_app. cbn [List.length]. lia.
Qed.

Lemma main_submission_stores_reply_witness :
  exists rq u a,
    let '(r, w') := main (fun _ => PostResp (mk_response 200 (lit "OK") GROQ_API_URL
                                                         (BodyJSON bonjour_body)))
                      (mk_run_input (Some (lit "gsk_0123456789a")) false true (lit "hi"))
                      (mk_world [OList []] [] [] (Some (VRef 0)) (Some true)) in
    w_sent w' = [] ++ [rq] /\
    nth_error (w_heap w') u = Some (turn "user" (str_val (lit "hi"))) /\
    match outcome_result (PostResp (mk_response 200 (lit "OK") GROQ_API_URL
                                                (BodyJSON bonjour_body))) with
    | Ok v => r = Raise (mk_exn RerunException []) /\
              nth_error (w_heap w') 0 = Some (OList ([] ++ [VRef u; VRef a])) /\
              nth_error (w_heap w') a = Some (turn "assistant" (VPrim v))
    | Raise e => r = Raise e /\
                 nth_error (w_heap w') 0 = Some (OList ([] ++ [VRef u]))
    end.
Proof.
  apply (main_submission_stores_reply _ (mk_run_input (Some (lit "gsk_0123456789a")) false true (lit "hi"))
           (mk_world [OList []] [] [] (Some (VRef 0)) (Some true)) (lit "gsk_0123456789a") 0 [] true);
    try reflexivity.
  constructor.
Defined.


Lemma show_messages_events h ms evs :
  Forall2 (fun v ev => message_event h v = Some ev) ms evs ->
  forall w, w_heap w = h ->
  show_messages ms w =
    (Ok tt, mk_world (w_heap w) (w_sent w) (w_trace w ++ evs) (ss_messages w) (ss_ancy_initialized w)).
Proof.
  induction 1 as [|v ev ms evs Hv Hrest IH]; intros w Hw.
  - destruct w; cbn. now rewrite app_nil_r.
  - unfold message_event in Hv. destruct v as [jv|j]; [discriminate|].
    destruct (nth_error h j) as [[xs|kvs]|] eqn:Hj; try discriminate.
    destruct (assoc (lit "role") kvs) as [role|] eqn:Hr; [|discriminate].
    destruct (assoc (lit "content") kvs) as [content|] eqn:Hc; [|discriminate].
    injection Hv as <-.
    cbn [show_messages]. unfold val_getitem. subst h.
    rewrite bind_assoc, (bind_load _ _ _ _ Hj). cbv beta iota. rewrite Hr, bind_ret.
    rewrite bind_assoc, (bind_load _ _ _ _ Hj). cbv beta iota. rewrite Hc, bind_ret.
    rewrite bind_emit. rewrite IH by reflexivity. cbn. now rewrite <- app_assoc.
Qed.

(** X14. With a valid key and no click, [main] completes normally, leaves the heap, the requests and the message list unchanged, and emits the page header, the welcome message on a first run, the clear button, one event per stored message and the footer. *)
Theorem main_idle_page net inp w k l ms evs b :
  GROQ_API_KEY inp = Some k -> py_truthy (validate_api_key (Some k)) = true ->
  clear_clicked inp = false ->
  submit_button inp && str_truthy (user_input inp) = false ->
  ss_messages w = Some (VRef l) -> ss_ancy_initialized w = Some b ->
  nth_error (w_heap w) l = Some (OList ms) ->
  Forall2 (fun v ev => message_event (w_heap w) v = Some ev) ms evs ->
  main net inp w =
    (Ok tt, mk_world (w_heap w) (w_sent w)
              (w_trace w ++ [EvPageConfig; EvStyle; EvClientCreated k] ++
               (if b then [] else [EvWelcome]) ++ [EvClearButton] ++ evs ++
               [EvRule; EvChatForm; EvRule; EvFooter])
              (Some (VRef l)) (Some true)).
Proof.
  intros Hk Hv Hc Hsub Hm Hf Hl Hev. pose proof (key_accepted k Hv) as Hcond.
  destruct w as [h s t m a]; cbn [w_heap w_sent w_trace ss_messages ss_ancy_initialized] in *; subst m a.
  unfold main. rewrite !bind_emit. cbn [w_heap w_sent w_trace ss_messages ss_ancy_initialized].
  erewrite bind_initialize_noop by reflexivity.
  cbv zeta. rewrite Hk, Hcond. cbv iota.
  unfold main_session. rewrite Hc, Hsub.
  destruct b; repeat (rewrite ?bind_assoc, ?bind_ret, ?bind_emit, ?bind_set_ss_ancy_initialized;
                      cbn [negb w_heap w_sent w_trace ss_messages ss_ancy_initialized];
                      try (erewrite bind_get_ss_ancy_initialized by reflexivity)).
  all: unfold display_conversation; rewrite bind_assoc;
       erewrite bind_get_ss_messages by reflexivity; cbv beta iota;
       rewrite bind_assoc; erewrite bind_load by exact Hl; cbv beta iota.
  all: match goal with |- context[bind (show_messages ?ms0) ?f ?W] =>
         rewrite (bind_ok _ f W _ _ (show_messages_events h ms0 evs Hev W eq_refl)) end.
  all: cbv [bind ret emit]; cbn [w_heap w_sent w_trace ss_messages ss_ancy_initialized].
  all: repeat rewrite <- app_assoc; cbn [app]; reflexivity.
Qed.

Lemma main_idle_page_witness :
  let h := [OList [VRef 1]; turn "user" (str_val (lit "hi"))] in
  main (fun _ => PostRaise (mk_exn Timeout []))
       (mk_run_input (Some (lit "gsk_0123456789a")) false false [])
       (mk_world h [] [] (Some (VRef 0)) (Some false)) =
    (Ok tt, mk_world h []
              ([] ++ [EvPageConfig; EvStyle; EvClientCreated (lit "gsk_0123456789a")] ++
               (if false then [] else [EvWelcome]) ++ [EvClearButton] ++
               [EvShowMessage true (str_val (lit "hi"))] ++
               [EvRule; EvChatForm; EvRule; EvFooter])
              (Some (VRef 0)) (Some true)).
Proof.
  cbv zeta.
  apply (main_idle_page _ (mk_run_input (Some (lit "gsk_0123456789a")) false false [])
           (mk_world [OList [VRef 1]; turn "user" (str_val (lit "hi"))] [] [] (Some (VRef 0)) (Some false))
           (lit "gsk_0123456789a") 0 [VRef 1]); try reflexivity.
  constructor; [reflexivity | constructor].
Defined.

(** X6. A response with a non-error status whose JSON body is not an object makes [chat] return the unexpected-error message. *)
Theorem chat_non_object_body net self ut l xs w r j :
  (forall rq, net rq = PostResp r) ->
  str_truthy (py_strip ut) = true ->
  nth_error (w_heap w) l = Some (OList xs) ->
  status_code r < 400 -> resp_body r = BodyJSON j ->
  (forall kvs, j <> JObj kvs) ->
  exists err, fst (chat net self ut (VRef l) w) = Ok (JStr (msg_unexpected err)).
Proof.
  intros Hn Hs Hl Hst Hb Hj. rewrite (chat_result_const net self ut l xs w _ Hn Hs Hl).
  rewrite (outcome_success_body r j Hst Hb).
  destruct j as [|bb|z|f|str|ys|kvs]; try (exfalso; now apply (Hj kvs));
    eexists; reflexivity.
Qed.

Lemma chat_non_object_body_witness :
  exists err,
    fst (chat (fun _ => PostResp (mk_response 200 (lit "OK") GROQ_API_URL (BodyJSON JNull)))
              (mk_ancy (lit "k")) (lit "hi") (VRef 0) (mk_world [OList []] [] [] None None))
      = Ok (JStr (msg_unexpected err)).
Proof.
  apply (chat_non_object_body _ _ _ 0 [] _
           (mk_response 200 (lit "OK") GROQ_API_URL (BodyJSON JNull)) JNull);
    try reflexivity.
  intros kvs. discriminate.
Defined.
